(** * Recommendation engine of the restaurant bot ([src/main.py])

    A shallow embedding of [RestaurantBot] and of the helpers it calls:
    [_convert_google_drive_url], [_filter_by_menu],
    [_smart_fallback_selection], [_fallback_selection_dict] and
    [get_recommendation].

    Conventions.
    - A Python [str] is a [string] holding its UTF-8 bytes.  UTF-8 is
      self-synchronising, so the byte-wise substring test coincides with
      Python's code-point-wise [in] on well-formed text.
    - A venue record (a Python [dict]) is a [gmap string string]; the
      records are never written to by the code, so they are values.
    - Python lists that are shared or updated in place live in a heap of
      list objects and are handled through their address.
    - Randomness and the external ranking call are supplied by an
      [Oracle]; theorems quantify over it.
    - The class [\d] of [re] is read on the ASCII digits, and a score,
      a Python float, is kept as a rational. *)

From Stdlib Require Import ZArith QArith Lqa Ascii String.
From stdpp Require Import gmap strings list fin_maps sorting.

Local Open Scope string_scope.
Local Open Scope list_scope.

(** ** Python string primitives *)

Module Str.

(** [s.startswith(p)] *)
Fixpoint startswith (p s : string) : bool :=
  match p, s with
  | EmptyString, _ => true
  | String _ _, EmptyString => false
  | String a p', String b s' => Ascii.eqb a b && startswith p' s'
  end.

(** [needle in hay] *)
Fixpoint contains (needle hay : string) : bool :=
  startswith needle hay ||
  match hay with
  | EmptyString => false
  | String _ t => contains needle t
  end.

(** [any(keyword in text for keyword in keywords)] *)
Definition any_in (keywords : list string) (text : string) : bool :=
  existsb (fun keyword => contains keyword text) keywords.

Definition is_empty (s : string) : bool :=
  match s with EmptyString => true | String _ _ => false end.

Definition in_range (lo hi c : ascii) : bool :=
  (N_of_ascii lo <=? N_of_ascii c)%N && (N_of_ascii c <=? N_of_ascii hi)%N.

Fixpoint take_while (f : ascii -> bool) (s : string) : string :=
  match s with
  | EmptyString => EmptyString
  | String c t => if f c then String c (take_while f t) else EmptyString
  end.

Fixpoint drop (n : nat) (s : string) : string :=
  match n, s with
  | O, _ => s
  | S _, EmptyString => EmptyString
  | S n', String _ t => drop n' t
  end.

Fixpoint all (f : ascii -> bool) (s : string) : bool :=
  match s with
  | EmptyString => true
  | String c t => f c && all f t
  end.

(** The regular expression class [\d], on ASCII text. *)
Definition is_digit (c : ascii) : bool := in_range "0" "9" c.

(** The characters removed by [str.strip()] that are one byte long. *)
Definition is_space (c : ascii) : bool :=
  in_range "009" "013" c || in_range "028" "032" c.

Fixpoint lstrip (s : string) : string :=
  match s with
  | EmptyString => EmptyString
  | String c t => if is_space c then lstrip t else s
  end.

Fixpoint rstrip (s : string) : string :=
  match s with
  | EmptyString => EmptyString
  | String c t =>
      let r := rstrip t in
      if is_space c && is_empty r then EmptyString else String c r
  end.

(** [s.strip()] *)
Definition strip (s : string) : string := rstrip (lstrip s).

(** [re.findall(r'\d+', s)], scanning left to right; [run] is the digit
    run being read. *)
Fixpoint findall_digits_from (run s : string) : list string :=
  match s with
  | EmptyString => if is_empty run then [] else [run]
  | String c t =>
      if is_digit c then findall_digits_from (run +:+ String c EmptyString) t
      else (if is_empty run then [] else [run]) ++ findall_digits_from EmptyString t
  end.

Definition findall_digits (s : string) : list string :=
  findall_digits_from EmptyString s.

Definition digit_value (c : ascii) : Z := Z.of_N (N_of_ascii c) - 48.

Fixpoint int_from (acc : Z) (s : string) : Z :=
  match s with
  | EmptyString => acc
  | String c t => int_from (10 * acc + digit_value c) t
  end.

(** [int(s)] for a run of decimal digits. *)
Definition int (s : string) : Z := int_from 0 s.

End Str.



(** ** [_convert_google_drive_url] (lines 35-50) *)

(** The class [[a-zA-Z0-9-_]]: after the range [0-9] the hyphen is a
    literal, as is the underscore. *)
Definition is_file_id_char (c : ascii) : bool :=
  Str.in_range "a" "z" c || Str.in_range "A" "Z" c || Str.in_range "0" "9" c
  || Ascii.eqb c "-" || Ascii.eqb c "_".

(** [re.search(r'/file/d/([a-zA-Z0-9-_]+)', url)]: the leftmost position at
    which the literal is followed by at least one character of the class;
    the result is group 1, the longest such run. *)
Fixpoint search_file_id (url : string) : option string :=
  let group1 :=
    if Str.startswith "/file/d/" url
    then Str.take_while is_file_id_char (Str.drop 8 url)
    else EmptyString in
  if Str.is_empty group1 then
    match url with
    | EmptyString => None
    | String _ t => search_file_id t
    end
  else Some group1.

Definition direct_url_prefix : string :=
  "https://drive.google.com/uc?export=view&id=".

Definition _convert_google_drive_url (url : string) : string :=
  if Str.is_empty url || negb (Str.contains "drive.google.com" url) then url
  else
    match search_file_id url with
    | Some file_id => direct_url_prefix +:+ file_id
    | None => url
    end.

(** ** Python objects, exceptions and the heap of list objects *)

(** [record.get(key, default)] *)
Definition dict_get (record : gmap string string) (key default : string) : string :=
  match record !! key with
  | Some value => value
  | None => default
  end.

(** [str.lower] is a parameter of the engine: the general theorems hold for
    any lower-casing function, the concrete scenarios use [lower_uk]. *)
Class StrLower := str_lower : string -> string.

Module Py.

Definition loc := nat.

Inductive exn : Set := TimeoutError | IndexError | OtherException.

Inductive outcome (A : Type) : Type :=
| Return (a : A)
| Raise (e : exn).
Arguments Return {A} a.
Arguments Raise {A} e.

(** A computation reads and updates the heap; object [l] is the list stored
    at index [l].  New objects go to the end, so an address is never
    reused. *)
Definition M (A : Type) : Type :=
  list (list (gmap string string)) -> outcome A * list (list (gmap string string)).

Definition ret {A} (a : A) : M A := fun h => (Return a, h).

Definition bind {A B} (f : A -> M B) (m : M A) : M B :=
  fun h =>
    match m h with
    | (Return a, h') => f a h'
    | (Raise e, h') => (Raise e, h')
    end.

Definition raise {A} (e : exn) : M A := fun h => (Raise e, h).

(** [try: body  except ...: handler] *)
Definition try_except {A} (body : M A) (handler : exn -> M A) : M A :=
  fun h =>
    match body h with
    | (Return a, h') => (Return a, h')
    | (Raise e, h') => handler e h'
    end.

(** Reading the list object at [l]. *)
Definition load (l : loc) : M (list (gmap string string)) :=
  fun h => (Return (default [] (h !! l)), h).

(** Replacing the contents of the list object at [l] (in-place update). *)
Definition store (l : loc) (items : list (gmap string string)) : M unit :=
  fun h => (Return tt, <[l := items]> h).

(** Creating a new list object. *)
Definition alloc (items : list (gmap string string)) : M loc :=
  fun h => (Return (length h), h ++ [items]).

(** [x.copy()] *)
Definition list_copy (x : loc) : M loc :=
  fun h => alloc (default [] (h !! x)) h.

(** The result of a call that the program does not control. *)
Definition external {A} (result : outcome A) : M A := fun h => (result, h).

(** [items[i]] for [0 <= i] *)
Definition getitem {A} (items : list A) (i : nat) : M A :=
  match items !! i with
  | Some a => ret a
  | None => raise IndexError
  end.

(** [x[i], x[j] = x[j], x[i]] *)
Definition swap {A} (x : list A) (i j : nat) : list A :=
  match x !! i, x !! j with
  | Some xi, Some xj => <[j := xi]> (<[i := xj]> x)
  | _, _ => x
  end.

(** The loop of [random.shuffle]: [for i in reversed(range(1, len(x)))],
    with [j = randbelow(i + 1)] read from [draw]. *)
Fixpoint shuffle_loop {A} (draw : nat -> nat) (n : nat) (x : list A) : list A :=
  match n with
  | O => x
  | S n' => shuffle_loop draw n' (swap x n (draw n mod (n + 1)))
  end.

(** [random.choice(items)] with [randbelow(len(items))] read from [draw]. *)
Definition random_choice {A} (draw : nat) (items : list A) : M A :=
  getitem items (draw mod length items).

End Py.

#[export] Instance M_ret : MRet Py.M := @Py.ret.
#[export] Instance M_bind : MBind Py.M := @Py.bind.

(** What the environment decides during one call: the draws of
    [random.shuffle], the result of the ranking call (its answer text, or
    the exception raised while waiting for it or reading it), the values of
    [random.uniform(0, 2)] for the successive restaurants, and the draw of
    [random.choice]. *)
Record Oracle := {
  shuffle_draw : nat -> nat;
  ranking_call : Py.outcome string;
  jitter : nat -> Q;
  choice_draw : nat
}.

Record RestaurantBot := { restaurants_data : Py.loc }.

(** ** Keyword tables *)

Definition food_keywords : list (string * list string) :=
  [ ("піца", ["піц"; "pizza"]);
    ("паста", ["паст"; "спагеті"; "pasta"]);
    ("бургер", ["бургер"; "burger"; "гамбургер"]);
    ("суші", ["суш"; "sushi"; "рол"]);
    ("салат", ["салат"; "salad"]);
    ("хумус", ["хумус"; "hummus"]);
    ("фалафель", ["фалафель"; "falafel"]);
    ("шаурма", ["шаурм"; "shawarma"]);
    ("стейк", ["стейк"; "steak"; "мясо"]);
    ("риба", ["риб"; "fish"; "лосось"]);
    ("курка", ["курк"; "курич"; "chicken"]);
    ("десерт", ["десерт"; "торт"; "тірамісу"; "морозиво"]) ].

Definition keywords_map : list (string * (list string * list string)) :=
  [ ("romantic", (["романт"; "побачен"; "двох"; "інтимн"; "затишн"],
                  ["інтимн"; "романт"; "для пар"; "затишн"]));
    ("family", (["сім"; "діт"; "родин"; "батьк"], ["сімейн"; "діт"; "родин"]));
    ("business", (["діл"; "зустріч"; "перегов"; "бізнес"],
                  ["діл"; "зустріч"; "бізнес"]));
    ("friends", (["друз"; "компан"; "гуртом"; "весел"],
                 ["компан"; "друз"; "молодіжн"]));
    ("quick", (["швидк"; "перекус"; "фаст"; "поспіша"],
               ["швидк"; "casual"; "фаст"]));
    ("celebration", (["святкув"; "день народж"; "ювіле"; "свято"],
                     ["святков"; "простор"; "груп"])) ].

(** [food_keywords[dish]] *)
Definition dish_keywords (dish : string) : list string :=
  match List.find (fun entry => String.eqb (fst entry) dish) food_keywords with
  | Some entry => snd entry
  | None => []
  end.

(** The body of the loop over the categories (lines 290-295). *)
Definition points_step (user_lower text : string) (score : Z)
    (entry : string * (list string * list string)) : Z :=
  if Str.any_in entry.2.1 user_lower then
    if Str.any_in entry.2.2 text then (score + 5)%Z else score
  else score.

(** The first category of [keywords_map]. *)
Definition romantic : string * (list string * list string) :=
  ("romantic", (["романт"; "побачен"; "двох"; "інтимн"; "затишн"],
                ["інтимн"; "романт"; "для пар"; "затишн"])).

(** ** The engine *)

Definition Qlt_bool (x y : Q) : bool := negb (Qle_bool y x).

(** [scored.sort(key=lambda x: x[0], reverse=True)]: the sort is stable, so
    of two entries with equal scores the earlier one stays first.  Inserting
    from the right, an entry goes in front of the first one whose score is
    not greater than its own. *)
Fixpoint insert_desc {A} (x : Q * A) (sorted : list (Q * A)) : list (Q * A) :=
  match sorted with
  | [] => [x]
  | y :: rest =>
      if Qlt_bool (fst x) (fst y) then y :: insert_desc x rest else x :: sorted
  end.

Definition sort_desc {A} (l : list (Q * A)) : list (Q * A) :=
  foldr insert_desc [] l.

(** The answer of the ranking call read as a choice (lines 166-182): the
    first number of the text, less one, when it is an index of the
    candidate list; [None] sends the caller to the fallback. *)
Definition validated_choice (choice_text : string) (len : nat) : option Z :=
  match Str.findall_digits choice_text with
  | number :: _ =>
      let choice_num := (Str.int number - 1)%Z in
      if (0 <=? choice_num)%Z && (choice_num <? Z.of_nat len)%Z
      then Some choice_num else None
  | [] => None
  end.

(** The dictionary built at lines 184-200 and again at lines 321-336. *)
Definition recommendation_dict (chosen : gmap string string) : gmap string string :=
  let photo_url := dict_get chosen "photo" "" in
  let photo_url :=
    if Str.is_empty photo_url then photo_url
    else _convert_google_drive_url photo_url in
  list_to_map
    [ ("name", dict_get chosen "name" "Ресторан");
      ("address", dict_get chosen "address" "Адреса не вказана");
      ("socials", dict_get chosen "socials" "Соц-мережі не вказані");
      ("vibe", dict_get chosen "vibe" "Приємна атмосфера");
      ("aim", dict_get chosen "aim" "Для будь-яких подій");
      ("cuisine", dict_get chosen "cuisine" "Смачна кухня");
      ("menu", dict_get chosen "menu" "");
      ("menu_url", dict_get chosen "menu_url" "");
      ("photo", photo_url) ].

(** The keys of the dictionary literal with the defaults of its [get]
    calls (lines 185-199 and 322-335). *)
Definition placeholders : list (string * string) :=
  [ ("name", "Ресторан");
    ("address", "Адреса не вказана");
    ("socials", "Соц-мережі не вказані");
    ("vibe", "Приємна атмосфера");
    ("aim", "Для будь-яких подій");
    ("cuisine", "Смачна кухня");
    ("menu", "");
    ("menu_url", "");
    ("photo", "") ].

(** The value of field [key] for record [r]: the value of the record, or
    the default; the photo goes through [_convert_google_drive_url]. *)
Definition field_value (r : gmap string string) (key placeholder : string) : string :=
  let value := dict_get r key placeholder in
  if decide (key = "photo") then _convert_google_drive_url value else value.

(** [random.shuffle(x)], in place. *)
Definition random_shuffle (rnd : Oracle) (x : Py.loc) : Py.M unit :=
  items ← Py.load x;
  Py.store x (Py.shuffle_loop (shuffle_draw rnd) (length items - 1) items).

Section Engine.
Context `{StrLower}.

(** *** [_filter_by_menu] (lines 209-265) *)

Definition requested_dishes (user_lower : string) : list string :=
  foldl (fun requested entry =>
           if Str.any_in (snd entry) user_lower
           then requested ++ [fst entry] else requested)
        [] food_keywords.

Definition has_requested_dish
    (requested : list string) (restaurant : gmap string string) : bool :=
  let menu_text := str_lower (dict_get restaurant "menu" "") in
  existsb (fun dish => Str.any_in (dish_keywords dish) menu_text) requested.

Definition _filter_by_menu
    (user_request : string) (restaurant_list : Py.loc) : Py.M Py.loc :=
  let user_lower := str_lower user_request in
  let requested := requested_dishes user_lower in
  match requested with
  | _ :: _ =>
      filtered_restaurants ← Py.alloc [];
      items ← Py.load restaurant_list;
      Py.store filtered_restaurants
        (foldl (fun kept restaurant =>
                  if has_requested_dish requested restaurant
                  then kept ++ [restaurant] else kept)
               [] items);;
      filtered ← Py.load filtered_restaurants;
      match filtered with
      | _ :: _ => mret filtered_restaurants
      | [] => mret restaurant_list
      end
  | [] => mret restaurant_list
  end.

(** *** [_smart_fallback_selection] (lines 267-315) *)

Definition restaurant_text (restaurant : gmap string string) : string :=
  str_lower (dict_get restaurant "vibe" "" +:+ " "
             +:+ dict_get restaurant "aim" "" +:+ " "
             +:+ dict_get restaurant "cuisine" "").

(** The inner loop over [keywords_map.items()]: [points_step] is its body. *)
Definition category_points (user_lower text : string) : Z :=
  foldl (points_step user_lower text) 0%Z keywords_map.

(** The score is kept as a rational: the sum of the points and of the
    jitter, without the rounding of floating-point addition. *)
Definition score (rnd : Oracle) (user_lower : string)
    (i : nat) (restaurant : gmap string string) : Q :=
  (inject_Z (category_points user_lower (restaurant_text restaurant))
   + jitter rnd i)%Q.

Definition score_all (rnd : Oracle) (user_lower : string)
    (items : list (gmap string string)) : list (Q * gmap string string) :=
  imap (fun i restaurant => (score rnd user_lower i restaurant, restaurant)) items.

Definition _smart_fallback_selection (rnd : Oracle)
    (user_request : string) (restaurant_list : Py.loc) : Py.M (gmap string string) :=
  let user_lower := str_lower user_request in
  items ← Py.load restaurant_list;
  let scored_restaurants := sort_desc (score_all rnd user_lower items) in
  top ← Py.getitem scored_restaurants 0;
  if Qlt_bool 0 (fst top) then
    let top_candidates :=
      take (min 3 (length scored_restaurants)) scored_restaurants in
    chosen ← Py.random_choice (choice_draw rnd) top_candidates;
    mret (snd chosen)
  else
    Py.random_choice (choice_draw rnd) items.

(** *** [_fallback_selection_dict] (lines 317-336) *)

Definition _fallback_selection_dict (self : RestaurantBot) (rnd : Oracle)
    (user_request : string) : Py.M (gmap string string) :=
  chosen ← _smart_fallback_selection rnd user_request (restaurants_data self);
  mret (recommendation_dict chosen).

(** *** [get_recommendation] (lines 80-207)

    The prompt (lines 105-143) is text handed to the ranking call and is
    not read again; the call itself is [ranking_call rnd].  Setting up the
    client (lines 84-89) assigns a module global and is left out. *)
Definition get_recommendation (self : RestaurantBot) (rnd : Oracle)
    (user_request : string) : Py.M (option (gmap string string)) :=
  Py.try_except
    (data ← Py.load (restaurants_data self);
     match data with
     | [] => mret None
     | _ :: _ =>
         shuffled_restaurants ← Py.list_copy (restaurants_data self);
         random_shuffle rnd shuffled_restaurants;;
         filtered_restaurants ← _filter_by_menu user_request shuffled_restaurants;
         response ← Py.external (ranking_call rnd);
         let choice_text := Str.strip response in
         filtered ← Py.load filtered_restaurants;
         chosen_restaurant ←
           match validated_choice choice_text (length filtered) with
           | Some choice_num => Py.getitem filtered (Z.to_nat choice_num)
           | None => _smart_fallback_selection rnd user_request filtered_restaurants
           end;
         mret (Some (recommendation_dict chosen_restaurant))
     end)
    (fun e =>
       match e with
       | Py.TimeoutError =>
           recommendation ← _fallback_selection_dict self rnd user_request;
           mret (Some recommendation)
       | _ =>
           recommendation ← _fallback_selection_dict self rnd user_request;
           mret (Some recommendation)
       end).

(** *** Vocabulary of the properties of [_filter_by_menu] *)

(** The request names a dish of the table. *)
Definition dish_detected (user_request : string) : Prop :=
  Exists (fun entry => Str.any_in entry.2 (str_lower user_request) = true)
         food_keywords.

(** The menu of the restaurant has a keyword of a dish that the request
    names. *)
Definition menu_matches (user_request : string)
    (restaurant : gmap string string) : Prop :=
  Exists (fun entry =>
            Str.any_in entry.2 (str_lower user_request) = true
            /\ Str.any_in entry.2 (str_lower (dict_get restaurant "menu" "")) = true)
         food_keywords.

#[export] Instance menu_matches_dec user_request restaurant :
  Decision (menu_matches user_request restaurant).
Proof. unfold menu_matches. apply _. Defined.

End Engine.

(** ** A concrete [str.lower] and the scenarios of the specification *)

(** Lower-casing of ASCII letters and of the Cyrillic capitals U+0400 to
    U+042F and U+0490, on UTF-8 bytes; every other byte is kept.  On text
    made of ASCII and Cyrillic it agrees with Python's [str.lower]. *)
Fixpoint lower_uk (s : string) : string :=
  match s with
  | EmptyString => EmptyString
  | String c t =>
      if Str.in_range "A" "Z" c
      then String (ascii_of_N (N_of_ascii c + 32)) (lower_uk t)
      else
        match t with
        | EmptyString => String c EmptyString
        | String d t' =>
            if Ascii.eqb c "208" then
              if Str.in_range "128" "143" d
              then String "209" (String (ascii_of_N (N_of_ascii d + 16)) (lower_uk t'))
              else if Str.in_range "144" "159" d
              then String "208" (String (ascii_of_N (N_of_ascii d + 32)) (lower_uk t'))
              else if Str.in_range "160" "175" d
              then String "209" (String (ascii_of_N (N_of_ascii d - 32)) (lower_uk t'))
              else String c (String d (lower_uk t'))
            else if Ascii.eqb c "210" && Ascii.eqb d "144"
            then String "210" (String "145" (lower_uk t'))
            else String c (lower_uk t)
        end
  end.

Definition sushi_bar : gmap string string :=
  list_to_map [("name", "Sushi Bar"); ("menu", "sushi rolls")].

Definition pizza_place : gmap string string :=
  list_to_map [("name", "Pizza Place"); ("menu", "pizza, pasta")].

(** The bot whose catalog is the list object at address 0. *)
Definition bot0 : RestaurantBot := {| restaurants_data := 0 |}.

Definition oracle_of (answer : Py.outcome string) (j : Q) (pick : nat) : Oracle :=
  {| shuffle_draw := fun _ => 0; ranking_call := answer;
     jitter := fun _ => j; choice_draw := pick |}.

Definition date_place : gmap string string :=
  list_to_map [("name", "Bistro"); ("vibe", "Романтична, затишна")].

Definition loud_place : gmap string string :=
  list_to_map [("name", "Pub"); ("vibe", "Гучна"); ("aim", "Спорт")].

(** ** The chat layer: [start] and [handle_message] (lines 340-423) *)

Module Chat.

(** A call to Telegram that went through. *)
Inductive Sent : Type :=
| ReplyText (text : string) (html : bool)
| ReplyPhoto (photo caption : string)
| DeleteMessage (text : string).

(** The state seen by the handlers: the heap of the engine, the global
    [user_states], the calls to Telegram that went through (oldest first)
    and the number of calls made. *)
Record World := {
  heap : list (list (gmap string string));
  user_states : gmap Z string;
  sent : list Sent;
  calls : nat
}.

Definition M (A : Type) : Type := World -> Py.outcome A * World.

Definition ret {A} (a : A) : M A := fun w => (Py.Return a, w).

Definition bind {A B} (f : A -> M B) (m : M A) : M B :=
  fun w =>
    match m w with
    | (Py.Return a, w') => f a w'
    | (Py.Raise e, w') => (Py.Raise e, w')
    end.

Definition raise {A} (e : Py.exn) : M A := fun w => (Py.Raise e, w).

Definition try_except {A} (body : M A) (handler : Py.exn -> M A) : M A :=
  fun w =>
    match body w with
    | (Py.Return a, w') => (Py.Return a, w')
    | (Py.Raise e, w') => handler e w'
    end.

(** A computation of the engine, run on the heap. *)
Definition lift {A} (m : Py.M A) : M A :=
  fun w =>
    let (o, h') := m (heap w) in
    (o, {| heap := h'; user_states := user_states w;
           sent := sent w; calls := calls w |}).

(** One awaited call to Telegram: [telegram n] tells whether call number [n]
    raises; a call that goes through is recorded. *)
Definition call (telegram : nat -> bool) (event : Sent) : M unit :=
  fun w =>
    if telegram (calls w)
    then (Py.Raise Py.OtherException,
          {| heap := heap w; user_states := user_states w;
             sent := sent w; calls := S (calls w) |})
    else (Py.Return tt,
          {| heap := heap w; user_states := user_states w;
             sent := sent w ++ [event]; calls := S (calls w) |}).

Definition get_states : M (gmap Z string) :=
  fun w => (Py.Return (user_states w), w).

Definition set_states (states : gmap Z string) : M unit :=
  fun w => (Py.Return tt,
            {| heap := heap w; user_states := states;
               sent := sent w; calls := calls w |}).

(** [d[key]]; a missing key raises [KeyError], kept as [OtherException]. *)
Definition getkey (d : gmap string string) (key : string) : M string :=
  match d !! key with
  | Some value => ret value
  | None => raise Py.OtherException
  end.

End Chat.

#[export] Instance Chat_ret : MRet Chat.M := @Chat.ret.
#[export] Instance Chat_bind : MBind Chat.M := @Chat.bind.

(** The line feed of the message texts. *)
Definition nl : string := String "010" EmptyString.

Definition start_message : string :=
  "🍽 Привіт! Я допоможу тобі знайти ідеальний ресторан!" +:+ nl +:+ nl
  +:+ "Розкажи мені про своє побажання. Наприклад:" +:+ nl
  +:+ "• 'Хочу місце для обіду з сім'єю'" +:+ nl
  +:+ "• 'Потрібен ресторан для побачення'" +:+ nl
  +:+ "• 'Шукаю піцу з друзями'" +:+ nl +:+ nl
  +:+ "Напиши, що ти шукаєш! 😊".

Definition ask_start : string := "Напишіть /start, щоб почати".
Definition searching : string := "🔍 Шукаю ідеальний ресторан для вас...".
Definition apology : string :=
  "Вибачте, не знайшов закладів з потрібними стравами. Спробуйте змінити запит або вказати конкретну страву.".
Definition ask_start_again : string := "Напишіть /start, щоб почати знову".

(** [start] (lines 340-355) *)
Definition start (telegram : nat -> bool) (user_id : Z) : Chat.M unit :=
  states ← Chat.get_states;
  Chat.set_states (<[user_id := "waiting_request"]> states);;
  Chat.call telegram (Chat.ReplyText start_message false).

(** The text of lines 380-386. *)
Definition response_text_of (recommendation : gmap string string) : Chat.M string :=
  name ← Chat.getkey recommendation "name";
  address ← Chat.getkey recommendation "address";
  socials ← Chat.getkey recommendation "socials";
  vibe ← Chat.getkey recommendation "vibe";
  mret ("🏠 <b>" +:+ name +:+ "</b>" +:+ nl +:+ nl
        +:+ "📍 <b>Адреса:</b> " +:+ address +:+ nl +:+ nl
        +:+ "📱 <b>Соц-мережі:</b> " +:+ socials +:+ nl +:+ nl
        +:+ "✨ <b>Атмосфера:</b> " +:+ vibe).

Definition menu_link (menu_url : string) : string :=
  nl +:+ nl +:+ "📋 <a href='" +:+ menu_url +:+ "'>Переглянути меню</a>".

Definition photo_link (photo_url : string) : string :=
  nl +:+ nl +:+ "📸 <a href='" +:+ photo_url +:+ "'>Переглянути фото ресторану</a>".

(** [s and s.startswith('http')] *)
Definition is_http (s : string) : bool :=
  negb (Str.is_empty s) && Str.startswith "http" s.

(** The truth value of an [Optional[Dict]]. *)
Definition truthy (recommendation : option (gmap string string)) : bool :=
  match recommendation with
  | Some d => negb (bool_decide (d = ∅))
  | None => false
  end.

Section Handlers.
Context `{StrLower}.

(** [handle_message] (lines 357-423) *)
Definition handle_message (bot : RestaurantBot) (rnd : Oracle)
    (telegram : nat -> bool) (user_id : Z) (user_request : string) : Chat.M unit :=
  states ← Chat.get_states;
  match states !! user_id with
  | None => Chat.call telegram (Chat.ReplyText ask_start false)
  | Some _ =>
      Chat.call telegram (Chat.ReplyText searching false);;
      recommendation ← Chat.lift (get_recommendation bot rnd user_request);
      Chat.call telegram (Chat.DeleteMessage searching);;
      (if truthy recommendation then
         let d := default ∅ recommendation in
         response_text ← response_text_of d;
         let menu_url := dict_get d "menu_url" "" in
         let response_text :=
           if is_http menu_url then response_text +:+ menu_link menu_url
           else response_text in
         let photo_url := dict_get d "photo" "" in
         if is_http photo_url then
           Chat.try_except
             (Chat.call telegram (Chat.ReplyPhoto photo_url response_text))
             (fun _ =>
                let response_text := response_text +:+ photo_link photo_url in
                Chat.call telegram (Chat.ReplyText response_text true))
         else Chat.call telegram (Chat.ReplyText response_text true)
       else Chat.call telegram (Chat.ReplyText apology false));;
      states ← Chat.get_states;
      match states !! user_id with
      | Some _ => Chat.set_states (delete user_id states)
      | None => Chat.raise Py.OtherException
      end;;
      Chat.call telegram (Chat.ReplyText ask_start_again false)
  end.

End Handlers.

(** [RestaurantBot.__init__] (lines 32-33) *)
Definition RestaurantBot_init : Py.M RestaurantBot :=
  l ← Py.alloc [];
  mret {| restaurants_data := l |}.

(** [init_google_sheets] (lines 52-78): [sheet] is what the steps up to
    [worksheet.get_all_records()] give, the records or the exception raised
    on the way; the result is the bot with its attribute as the method
    leaves it. *)
Definition init_google_sheets (self : RestaurantBot)
    (sheet : Py.outcome (list (gmap string string))) : Py.M RestaurantBot :=
  Py.try_except
    (records ← Py.external sheet;
     l ← Py.alloc records;
     mret {| restaurants_data := l |})
    (fun _ => mret self).

(** The caption of a recommendation built from record [r] (lines 380-391). *)
Definition caption_of (r : gmap string string) : string :=
  let response_text :=
    "🏠 <b>" +:+ dict_get r "name" "Ресторан" +:+ "</b>" +:+ nl +:+ nl
    +:+ "📍 <b>Адреса:</b> " +:+ dict_get r "address" "Адреса не вказана" +:+ nl +:+ nl
    +:+ "📱 <b>Соц-мережі:</b> " +:+ dict_get r "socials" "Соц-мережі не вказані"
    +:+ nl +:+ nl
    +:+ "✨ <b>Атмосфера:</b> " +:+ dict_get r "vibe" "Приємна атмосфера" in
  if is_http (dict_get r "menu_url" "")
  then response_text +:+ menu_link (dict_get r "menu_url" "")
  else response_text.

(** The message that carries the recommendation when the photo can be
    sent (lines 396-416). *)
Definition recommendation_message (r : gmap string string) : Chat.Sent :=
  let photo_url := _convert_google_drive_url (dict_get r "photo" "") in
  if is_http photo_url then Chat.ReplyPhoto photo_url (caption_of r)
  else Chat.ReplyText (caption_of r) true.

(** ** Vocabulary of the further properties *)

(** Scores in descending order. *)
Definition descending {A} (l : list (Q * A)) : Prop :=
  StronglySorted (fun x y => (y.1 <= x.1)%Q) l.

Section EngineVocabulary.
Context `{StrLower}.

(** The restaurant earns points for the request: some category matches both
    the request and the text of the restaurant. *)
Definition category_matched (user_request : string)
    (restaurant : gmap string string) : Prop :=
  (0 < category_points (str_lower user_request) (restaurant_text restaurant))%Z.

#[export] Instance category_matched_dec user_request restaurant :
  Decision (category_matched user_request restaurant).
Proof. unfold category_matched. apply _. Defined.

End EngineVocabulary.

(** ** Further sample data *)

Definition family_place (name : string) : gmap string string :=
  list_to_map [("name", name); ("aim", "Сімейний відпочинок з дітьми")].


Definition world0 (states : gmap Z string) (sent : list Chat.Sent) : Chat.World :=
  {| Chat.heap := [[sushi_bar; pizza_place]]; Chat.user_states := states;
     Chat.sent := sent; Chat.calls := 0 |}.

(** * Properties *)

(** ** Strings *)

Lemma append_cons c (s t : string) : String c s +:+ t = String c (s +:+ t).
Proof. reflexivity. Qed.



Lemma all_take_while f s : Str.all f (Str.take_while f s) = true.
Proof.
  induction s as [|c s IH]; simpl; [done |].
  destruct (f c) eqn:Hc; simpl; [by rewrite Hc | done].
Qed.


Lemma file_id_char_not_slash c : is_file_id_char c = true -> Ascii.eqb "/" c = false.
Proof. destruct c as [[] [] [] [] [] [] [] []]; vm_compute; congruence. Qed.

(** ** [_convert_google_drive_url] *)

Lemma search_file_id_cons c t :
  search_file_id (String c t) =
  if Str.startswith "/file/d/" (String c t) then
    let group1 := Str.take_while is_file_id_char (Str.drop 8 (String c t)) in
    if Str.is_empty group1 then search_file_id t else Some group1
  else search_file_id t.
Proof.
  change (search_file_id (String c t)) with
    (let group1 :=
       if Str.startswith "/file/d/" (String c t)
       then Str.take_while is_file_id_char (Str.drop 8 (String c t))
       else EmptyString in
     if Str.is_empty group1 then search_file_id t else Some group1).
  by destruct (Str.startswith _ _).
Qed.

Lemma startswith_cons a p b s :
  Str.startswith (String a p) (String b s) = Ascii.eqb a b && Str.startswith p s.
Proof. reflexivity. Qed.

Lemma search_file_id_some u file_id :
  search_file_id u = Some file_id ->
  Str.all is_file_id_char file_id = true /\ Str.is_empty file_id = false.
Proof.
  induction u as [|c u IH]; [discriminate |].
  rewrite search_file_id_cons.
  destruct (Str.startswith _ _); [| exact IH].
  cbv zeta. set (group1 := Str.take_while _ _).
  destruct (Str.is_empty group1) eqn:Hemp; [exact IH |].
  intros [= <-]. split; [apply all_take_while | exact Hemp].
Qed.

Lemma search_file_id_in_id (s : string) :
  Str.all is_file_id_char s = true -> search_file_id s = None.
Proof.
  induction s as [|c s IH]; [done |].
  intros [Hc Hs]%andb_prop.
  rewrite search_file_id_cons, startswith_cons, (file_id_char_not_slash c Hc).
  by apply IH.
Qed.

Lemma search_file_id_direct (file_id : string) :
  Str.all is_file_id_char file_id = true ->
  search_file_id (direct_url_prefix +:+ file_id) = None.
Proof.
  intros Hid. cbv [direct_url_prefix String.append].
  repeat (rewrite search_file_id_cons;
          match goal with
          | |- context [Str.startswith ?p (String ?c ?t)] =>
              change (Str.startswith p (String c t)) with false
          end; cbv iota).
  by apply search_file_id_in_id.
Qed.

Lemma convert_fixed_on_direct (file_id : string) :
  Str.all is_file_id_char file_id = true ->
  _convert_google_drive_url (direct_url_prefix +:+ file_id) = direct_url_prefix +:+ file_id.
Proof.
  intros Hid. unfold _convert_google_drive_url.
  rewrite search_file_id_direct by done.
  by destruct (_ || _).
Qed.

Lemma convert_cases u :
  _convert_google_drive_url u = u
  \/ exists file_id, Str.all is_file_id_char file_id = true
       /\ _convert_google_drive_url u = direct_url_prefix +:+ file_id.
Proof.
  unfold _convert_google_drive_url.
  destruct (_ || _); [by left |].
  destruct (search_file_id u) as [file_id|] eqn:Hsearch; [| by left].
  right. exists file_id. by apply search_file_id_some in Hsearch as [? _].
Qed.

(** C8. [_convert_google_drive_url] applied twice gives what it gives applied
    once; an empty URL, a URL without [drive.google.com] and a URL in which
    the pattern [/file/d/<id>] does not occur are returned as they are; the
    share link of file [ABC123] becomes its direct link and a link to another
    site is unchanged. *)
Theorem convert_google_drive_url_idempotent :
  (forall u, _convert_google_drive_url (_convert_google_drive_url u)
             = _convert_google_drive_url u)
  /\ (forall u, u = "" \/ Str.contains "drive.google.com" u = false
                \/ search_file_id u = None ->
                _convert_google_drive_url u = u)
  /\ _convert_google_drive_url "https://drive.google.com/file/d/ABC123/view"
     = "https://drive.google.com/uc?export=view&id=ABC123"
  /\ _convert_google_drive_url "https://example.com/img.jpg"
     = "https://example.com/img.jpg".
Proof.
  split; [| split; [| split; reflexivity]].
  - intros u.
    destruct (convert_cases u) as [Hsame | (file_id & Hid & ->)].
    + by rewrite !Hsame.
    + by apply convert_fixed_on_direct.
  - intros u [-> | [Hno | Hno]]; unfold _convert_google_drive_url.
    + done.
    + rewrite Hno. simpl. by rewrite orb_true_r.
    + rewrite Hno. by destruct (_ || _).
Qed.

Lemma convert_google_drive_url_idempotent_witness :
  _convert_google_drive_url "https://drive.google.com/drive/folders/xyz"
  = "https://drive.google.com/drive/folders/xyz".
Proof.
  apply (proj1 (proj2 convert_google_drive_url_idempotent)).
  right; right. reflexivity.
Defined.

(** ** Reading the answer of the ranking call *)










Lemma validated_choice_range s n k :
  validated_choice s n = Some k -> (0 <= k < Z.of_nat n)%Z.
Proof.
  unfold validated_choice.
  destruct (Str.findall_digits s) as [|number ?]; [done |].
  cbv zeta. destruct (_ && _) eqn:Hin; [| done].
  intros [= <-]. apply andb_prop in Hin as [?%Z.leb_le ?%Z.ltb_lt]. lia.
Qed.



(** ** Running computations on the heap *)

Lemma bind_run {A B} (f : A -> Py.M B) (m : Py.M A) h :
  (m ≫= f) h =
  match m h with
  | (Py.Return a, h') => f a h'
  | (Py.Raise e, h') => (Py.Raise e, h')
  end.
Proof. reflexivity. Qed.

Lemma ret_run {A} (a : A) h : (mret a : Py.M A) h = (Py.Return a, h).
Proof. reflexivity. Qed.

Lemma load_run l h : Py.load l h = (Py.Return (default [] (h !! l)), h).
Proof. reflexivity. Qed.

Lemma load_at l h items :
  h !! l = Some items -> Py.load l h = (Py.Return items, h).
Proof. intros Hl. by rewrite load_run, Hl. Qed.

Lemma lookup_new_object (h : list (list (gmap string string))) items :
  (h ++ [items]) !! length h = Some items.
Proof. by apply list_lookup_middle. Qed.

Lemma lookup_old_object (h extra : list (list (gmap string string))) l items :
  h !! l = Some items -> (h ++ extra) !! l = Some items.
Proof. apply lookup_app_l_Some. Qed.

Lemma store_new_object (h : list (list (gmap string string))) old items :
  <[length h := items]> (h ++ [old]) = h ++ [items].
Proof.
  rewrite insert_app_r_alt by lia. by rewrite Nat.sub_diag.
Qed.

Lemma default_lookup_snoc_nil (h : list (list (gmap string string))) l :
  default [] ((h ++ [[]]) !! l) = default [] (h !! l).
Proof.
  destruct (decide (l < length h)) as [Hlt | Hge].
  - by rewrite lookup_app_l.
  - rewrite lookup_app_r, (lookup_ge_None_2 h l) by lia.
    by destruct (l - length h) as [|[|?]].
Qed.

Lemma getitem_run {A} (items : list A) i a h :
  items !! i = Some a -> Py.getitem items i h = (Py.Return a, h).
Proof. intros Hi. unfold Py.getitem. by rewrite Hi. Qed.

Lemma random_choice_run {A} draw (items : list A) h :
  items <> [] ->
  exists a, Py.random_choice draw items h = (Py.Return a, h)
            /\ items !! (draw mod length items) = Some a.
Proof.
  intros Hne. unfold Py.random_choice.
  destruct (lookup_lt_is_Some_2 items (draw mod length items)) as [a Ha].
  { apply Nat.mod_upper_bound. by destruct items. }
  exists a. split; [by apply getitem_run | done].
Qed.

(** ** [random.shuffle] *)

Lemma swap_perm {A} (x : list A) i j : Py.swap x i j ≡ₚ x.
Proof.
  unfold Py.swap.
  destruct (x !! i) as [xi|] eqn:Hi; [| done].
  destruct (x !! j) as [xj|] eqn:Hj; [| done].
  by apply Permutation_insert_swap.
Qed.

Lemma shuffle_loop_perm {A} draw n (x : list A) : Py.shuffle_loop draw n x ≡ₚ x.
Proof.
  revert x. induction n as [|n IH]; intros x; [done |].
  simpl. rewrite IH. apply swap_perm.
Qed.

Lemma random_shuffle_new rnd h items :
  random_shuffle rnd (length h) (h ++ [items])
  = (Py.Return tt,
     h ++ [Py.shuffle_loop (shuffle_draw rnd) (length items - 1) items]).
Proof.
  unfold random_shuffle. rewrite bind_run, (load_at _ _ items).
  - unfold Py.store. by rewrite store_new_object.
  - apply lookup_new_object.
Qed.

(** ** [_filter_by_menu] *)

Lemma foldl_keep {A} (p : A -> bool) (kept items : list A) :
  foldl (fun kept x => if p x then kept ++ [x] else kept) kept items
  = kept ++ filter (fun x => p x = true) items.
Proof.
  revert kept. induction items as [|x items IH]; intros kept; simpl.
  - by rewrite app_nil_r.
  - rewrite IH. destruct (p x) eqn:Hp.
    + rewrite filter_cons_True by done. by rewrite <- app_assoc.
    + rewrite filter_cons_False; [done | congruence].
Qed.

Lemma requested_dishes_fold user_lower (table : list (string * list string)) acc :
  foldl (fun requested entry =>
           if Str.any_in (snd entry) user_lower
           then requested ++ [fst entry] else requested)
        acc table
  = acc ++ (filter (fun entry => Str.any_in (snd entry) user_lower = true) table).*1.
Proof.
  revert acc. induction table as [|entry table IH]; intros acc; simpl.
  - by rewrite app_nil_r.
  - rewrite IH. destruct (Str.any_in entry.2 user_lower) eqn:Hin.
    + rewrite filter_cons_True by done. by rewrite <- app_assoc.
    + rewrite filter_cons_False; [done | congruence].
Qed.

Lemma requested_dishes_eq user_lower :
  requested_dishes user_lower
  = (filter (fun entry => Str.any_in (snd entry) user_lower = true) food_keywords).*1.
Proof. unfold requested_dishes. by rewrite requested_dishes_fold. Qed.

Lemma dish_keywords_entry entry :
  entry ∈ food_keywords -> dish_keywords entry.1 = entry.2.
Proof.
  unfold food_keywords. rewrite !elem_of_cons, elem_of_nil.
  intros Hin. repeat (destruct Hin as [-> | Hin]; [reflexivity |]). done.
Qed.

Section FilterSpec.
Context `{StrLower}.

Lemma has_requested_dish_iff user_lower restaurant :
  has_requested_dish (requested_dishes user_lower) restaurant = true
  <-> exists entry, entry ∈ food_keywords
        /\ Str.any_in entry.2 user_lower = true
        /\ Str.any_in entry.2 (str_lower (dict_get restaurant "menu" "")) = true.
Proof.
  unfold has_requested_dish. rewrite existsb_exists, requested_dishes_eq. split.
  - intros (dish & Hdish & Hmenu).
    apply list_elem_of_In in Hdish.
    apply list_elem_of_fmap in Hdish as (entry & -> & Hentry).
    apply list_elem_of_filter in Hentry as [Huser Hentry].
    rewrite (dish_keywords_entry entry) in Hmenu by done.
    by exists entry.
  - intros (entry & Hentry & Huser & Hmenu).
    exists entry.1. split.
    + apply list_elem_of_In. apply list_elem_of_fmap.
      exists entry. split; [done |]. by apply list_elem_of_filter.
    + by rewrite dish_keywords_entry.
Qed.

Lemma requested_dishes_nil user_lower :
  requested_dishes user_lower = []
  <-> ~ exists entry, entry ∈ food_keywords /\ Str.any_in entry.2 user_lower = true.
Proof.
  rewrite requested_dishes_eq. split.
  - intros Hnil (entry & Hentry & Huser).
    apply fmap_nil_inv in Hnil.
    assert (entry ∈ @nil (string * list string)) as Habs; [| by inversion Habs].
    rewrite <- Hnil. by apply list_elem_of_filter.
  - intros Hnone.
    destruct (filter _ food_keywords) as [|entry rest] eqn:Hf; [done |].
    exfalso. apply Hnone. exists entry.
    assert (entry ∈ entry :: rest) as Hin by left.
    rewrite <- Hf in Hin. apply list_elem_of_filter in Hin as [? ?]. done.
Qed.

Lemma filter_by_menu_run user_request l h requested kept :
  requested = requested_dishes (str_lower user_request) ->
  kept = filter (fun r => has_requested_dish requested r = true)
                (default [] (h !! l)) ->
  _filter_by_menu user_request l h =
  match requested, kept with
  | [], _ => (Py.Return l, h)
  | _ :: _, [] => (Py.Return l, h ++ [[]])
  | _ :: _, _ :: _ => (Py.Return (length h), h ++ [kept])
  end.
Proof.
  intros Hreq Hkept. unfold _filter_by_menu. rewrite <- Hreq.
  destruct requested as [|dish rest]; [reflexivity |].
  rewrite bind_run. unfold Py.alloc at 1.
  rewrite bind_run, load_run, bind_run, default_lookup_snoc_nil.
  unfold Py.store at 1. rewrite store_new_object, foldl_keep, app_nil_l.
  cbv beta. subst kept.
  rewrite bind_run, (load_at _ _ _ (lookup_new_object _ _)).
  by destruct (filter _ _).
Qed.

End FilterSpec.

Section FilterClaim.
Context `{StrLower}.

Lemma has_requested_dish_matches user_request restaurant :
  has_requested_dish (requested_dishes (str_lower user_request)) restaurant = true
  <-> menu_matches user_request restaurant.
Proof.
  rewrite has_requested_dish_iff. unfold menu_matches. by rewrite Exists_exists.
Qed.

Lemma requested_dishes_detected user_request :
  requested_dishes (str_lower user_request) <> [] <-> dish_detected user_request.
Proof.
  unfold dish_detected. rewrite Exists_exists. split.
  - intros Hne. destruct (decide (Exists (fun entry =>
        Str.any_in entry.2 (str_lower user_request) = true) food_keywords))
      as [Hex | Hno].
    + by apply Exists_exists in Hex.
    + exfalso. apply Hne, requested_dishes_nil.
      intros (entry & Hin & Huser). apply Hno, Exists_exists.
      by exists entry.
  - intros (entry & Hin & Huser) Hnil.
    apply requested_dishes_nil in Hnil. apply Hnil.
    by exists entry.
Qed.

Lemma filter_by_menu_result user_request l h :
  let items := default [] (h !! l) in
  let kept := filter (menu_matches user_request) items in
  _filter_by_menu user_request l h =
  if decide (dish_detected user_request) then
    match kept with
    | [] => (Py.Return l, h ++ [[]])
    | _ :: _ => (Py.Return (length h), h ++ [kept])
    end
  else (Py.Return l, h).
Proof.
  intros items kept.
  rewrite (filter_by_menu_run user_request l h _ kept eq_refl).
  - destruct (decide _) as [Hdet | Hno].
    + apply requested_dishes_detected in Hdet.
      by destruct (requested_dishes _).
    + destruct (requested_dishes _) eqn:Hreq; [done |].
      exfalso. apply Hno, requested_dishes_detected. by rewrite Hreq.
  - apply list_filter_iff. intros r. by rewrite has_requested_dish_matches.
Qed.

(** C5. When the request names a dish of the table and the menu of at least
    one candidate has a keyword of a named dish, the result of
    [_filter_by_menu] is a non-empty list made of exactly the candidates
    whose menu matches, in their original order; when the request names no
    dish, or no menu matches, the result is the list it was given. *)
Theorem filter_by_menu_keeps_matches user_request l h items :
  h !! l = Some items ->
  exists l' extra out,
    _filter_by_menu user_request l h = (Py.Return l', h ++ extra)
    /\ (h ++ extra) !! l' = Some out
    /\ (dish_detected user_request ->
        (exists r, r ∈ items /\ menu_matches user_request r) ->
        out <> []
        /\ out = filter (menu_matches user_request) items
        /\ out `sublist_of` items
        /\ forall r, r ∈ out <-> r ∈ items /\ menu_matches user_request r)
    /\ (~ dish_detected user_request
        \/ ~ (exists r, r ∈ items /\ menu_matches user_request r) ->
        l' = l /\ out = items).
Proof.
  intros Hl. rewrite filter_by_menu_result, Hl. simpl.
  destruct (decide (dish_detected user_request)) as [Hdet | Hno].
  - destruct (filter (menu_matches user_request) items) as [|r kept] eqn:Hkept.
    + exists l, [[]], items. split; [done |]. split; [by apply lookup_old_object |].
      split.
      * intros _ (r & Hr & Hm).
        assert (r ∈ filter (menu_matches user_request) items) as Hin
          by by apply list_elem_of_filter.
        rewrite Hkept in Hin. by inversion Hin.
      * done.
    + exists (length h), [r :: kept], (r :: kept).
      split; [done |]. split; [apply lookup_new_object |]. split.
      * intros _ _. split; [done |]. split; [done |]. rewrite <- Hkept.
        split; [apply sublist_filter |].
        intros r'. rewrite list_elem_of_filter. tauto.
      * intros [Hno | Hno]; [done |]. exfalso. apply Hno.
        assert (r ∈ filter (menu_matches user_request) items) as Hin
          by (rewrite Hkept; left).
        apply list_elem_of_filter in Hin as [? ?]. by exists r.
  - exists l, [], items. rewrite app_nil_r. by repeat split.
Qed.

End FilterClaim.

Lemma filter_by_menu_keeps_matches_witness :
  exists out,
    out <> []
    /\ out = filter (menu_matches (H:=lower_uk) "шукаю піцу") [sushi_bar; pizza_place]
    /\ out `sublist_of` [sushi_bar; pizza_place]
    /\ forall r, r ∈ out <->
         r ∈ [sushi_bar; pizza_place] /\ menu_matches (H:=lower_uk) "шукаю піцу" r.
Proof.
  destruct (filter_by_menu_keeps_matches (H:=lower_uk) "шукаю піцу" 0
              [[sushi_bar; pizza_place]] [sushi_bar; pizza_place] eq_refl)
    as (l' & extra & out & _ & _ & Hkeep & _).
  exists out. apply Hkeep.
  - apply Exists_cons_hd. reflexivity.
  - exists pizza_place. split; [apply elem_of_cons; right; apply elem_of_cons; by left |].
    apply Exists_cons_hd. split; reflexivity.
Defined.

(** ** The stable descending sort *)

Lemma insert_desc_perm {A} (x : Q * A) (l : list (Q * A)) :
  insert_desc x l ≡ₚ x :: l.
Proof.
  induction l as [|y l IH]; simpl; [done |].
  destruct (Qlt_bool x.1 y.1); [| done].
  rewrite IH. apply Permutation_swap.
Qed.

Lemma sort_desc_perm {A} (l : list (Q * A)) : sort_desc l ≡ₚ l.
Proof.
  induction l as [|x l IH]; simpl; [done |].
  by rewrite insert_desc_perm, IH.
Qed.

Lemma insert_desc_front {A} (x : Q * A) (l : list (Q * A)) k :
  Forall (fun y => y.1 = k) l -> Qlt_bool x.1 k = false ->
  insert_desc x l = x :: l.
Proof.
  intros Hl Hk. destruct l as [|y l]; [done |].
  apply Forall_cons in Hl as [Hy _]. simpl. by rewrite Hy, Hk.
Qed.

Lemma sort_desc_level {A} (l : list (Q * A)) k :
  Forall (fun y => y.1 = k) l -> Qlt_bool k k = false -> sort_desc l = l.
Proof.
  intros Hl Hk. induction l as [|x l IH]; [done |].
  apply Forall_cons in Hl as [Hx Hl]. simpl. rewrite IH by done.
  apply (insert_desc_front _ _ k); [done | by rewrite Hx].
Qed.

(** One entry above a level of equal scores comes first; the others keep
    their order. *)
Lemma sort_desc_one_above {A} (lo1 lo2 : list (Q * A)) (top : Q * A) k :
  Forall (fun y => y.1 = k) (lo1 ++ lo2) ->
  Qlt_bool k top.1 = true -> Qlt_bool top.1 k = false -> Qlt_bool k k = false ->
  sort_desc (lo1 ++ top :: lo2) = top :: lo1 ++ lo2.
Proof.
  intros Hlo Hlt Hge Hkk. induction lo1 as [|x lo1 IH]; simpl.
  - rewrite (sort_desc_level lo2 k) by done.
    by apply (insert_desc_front _ _ k).
  - simpl in Hlo. apply Forall_cons in Hlo as [Hx Hlo].
    rewrite IH by done. simpl. rewrite Hx, Hlt. f_equal.
    apply (insert_desc_front _ _ k); [done | by rewrite Hx].
Qed.

(** ** [_smart_fallback_selection] *)

Lemma keywords_map_NoDup : NoDup keywords_map.
Proof. apply (bool_decide_unpack _). by vm_compute. Qed.

Section FallbackSpec.
Context `{StrLower}.

Lemma score_all_member rnd user_lower items scored :
  scored ∈ score_all rnd user_lower items -> scored.2 ∈ items.
Proof.
  intros (i & r & -> & Hi)%elem_of_lookup_imap_1.
  by apply list_elem_of_lookup_2 in Hi.
Qed.

Lemma smart_fallback_selection_run rnd user_request l h items :
  h !! l = Some items -> items <> [] ->
  exists r, _smart_fallback_selection rnd user_request l h = (Py.Return r, h)
            /\ r ∈ items.
Proof.
  intros Hl Hne. unfold _smart_fallback_selection.
  rewrite bind_run, (load_at _ _ items Hl).
  set (all := score_all rnd (str_lower user_request) items).
  pose proof (sort_desc_perm all) as Hperm.
  destruct (sort_desc all) as [|top rest] eqn:Hsorted.
  { apply Permutation_length in Hperm. unfold all, score_all in Hperm.
    rewrite length_imap in Hperm. by destruct items. }
  rewrite bind_run, (getitem_run _ 0 top) by done.
  destruct (Qlt_bool 0 top.1).
  - destruct (random_choice_run (choice_draw rnd)
                (take (3 `min` length (top :: rest)) (top :: rest)) h)
      as (chosen & Hrun & Hchosen); [done |].
    exists chosen.2. rewrite bind_run, Hrun. split; [done |].
    apply (score_all_member rnd (str_lower user_request)). fold all.
    rewrite <- Hperm. apply lookup_take_Some in Hchosen as [Hchosen _].
    by apply list_elem_of_lookup_2 in Hchosen.
  - destruct (random_choice_run (choice_draw rnd) items h Hne)
      as (chosen & Hrun & Hchosen).
    exists chosen. split; [done |]. by apply list_elem_of_lookup_2 in Hchosen.
Qed.

(** C7. For a non-empty candidate list, every request and every outcome of
    the random draws, [_smart_fallback_selection] returns (it raises
    nothing), what it returns is one of the candidates, and the heap is as
    before. *)
Theorem smart_fallback_selection_total rnd user_request l h items :
  h !! l = Some items -> items <> [] ->
  exists r, _smart_fallback_selection rnd user_request l h = (Py.Return r, h)
            /\ r ∈ items.
Proof. apply smart_fallback_selection_run. Qed.

End FallbackSpec.

Lemma smart_fallback_selection_total_witness :
  exists r,
    _smart_fallback_selection (H:=lower_uk) (oracle_of (Py.Return "") 1 4)
      "щось смачне" 0 [[sushi_bar; pizza_place]]
    = (Py.Return r, [[sushi_bar; pizza_place]])
    /\ r ∈ [sushi_bar; pizza_place].
Proof.
  apply (smart_fallback_selection_total (H:=lower_uk)); [reflexivity | done].
Defined.

Section FallbackUniqueMatch.
Context `{StrLower}.

Lemma points_no_request user_lower text table score :
  Forall (fun entry => Str.any_in entry.2.1 user_lower = false) table ->
  foldl (points_step user_lower text) score table = score.
Proof.
  revert score. induction table as [|entry table IH]; intros score Hall; [done |].
  apply Forall_cons in Hall as [Hentry Hall]. simpl.
  unfold points_step at 2. rewrite Hentry. by apply IH.
Qed.

(** When the request matches the request-keywords of [category] and of no
    other category, the points of a restaurant are those of [category]. *)
Lemma category_points_single user_lower text category :
  category ∈ keywords_map ->
  Str.any_in category.2.1 user_lower = true ->
  (forall other, other ∈ keywords_map -> other <> category ->
                 Str.any_in other.2.1 user_lower = false) ->
  category_points user_lower text
  = if Str.any_in category.2.2 text then 5%Z else 0%Z.
Proof.
  intros Hin Huser Hothers.
  unfold category_points.
  pose proof keywords_map_NoDup as Hnodup.
  apply list_elem_of_split in Hin as (before & after & Hsplit).
  rewrite Hsplit in Hnodup, Hothers |- *.
  apply NoDup_app in Hnodup as (_ & Hbefore & [Hafter _]%NoDup_cons).
  rewrite foldl_app. simpl.
  rewrite (points_no_request _ _ before).
  - unfold points_step at 2. rewrite Huser.
    apply points_no_request, Forall_forall. intros other Hother.
    apply Hothers; [| by intros ->].
    apply elem_of_app. right. by right.
  - apply Forall_forall. intros other Hother. apply Hothers.
    + apply elem_of_app. by left.
    + intros ->. apply (Hbefore category); [done | by left].
Qed.

Lemma score_all_no_jitter rnd user_lower items :
  (forall i, jitter rnd i = 0%Q) ->
  score_all rnd user_lower items
  = (fun r => ((inject_Z (category_points user_lower (restaurant_text r)) + 0)%Q, r))
      <$> items.
Proof.
  intros Hzero. unfold score_all, score. rewrite <- imap_const.
  apply imap_ext. intros i r _. simpl. by rewrite Hzero.
Qed.

(** C6, as the code has it.  With the jitter at zero, a request that matches
    the request-keywords of exactly one category, and exactly one candidate
    [c] whose text matches the venue-keywords of that category: [c] scores 5
    and every other candidate 0, [c] is first after the sort and the others
    follow in their original order, and [_smart_fallback_selection] returns
    the entry at position [choice_draw mod min(3, n)] of that order, which
    is [c] when that position is 0. *)
Theorem fallback_single_match_top3 rnd user_request l h l1 c l2 category :
  h !! l = Some (l1 ++ c :: l2) ->
  (forall i, jitter rnd i = 0%Q) ->
  category ∈ keywords_map ->
  Str.any_in category.2.1 (str_lower user_request) = true ->
  (forall other, other ∈ keywords_map -> other <> category ->
                 Str.any_in other.2.1 (str_lower user_request) = false) ->
  Str.any_in category.2.2 (restaurant_text c) = true ->
  Forall (fun r => Str.any_in category.2.2 (restaurant_text r) = false) (l1 ++ l2) ->
  score rnd (str_lower user_request) (length l1) c = 5%Q
  /\ (forall i r, r ∈ l1 ++ l2 -> score rnd (str_lower user_request) i r = 0%Q)
  /\ (sort_desc (score_all rnd (str_lower user_request) (l1 ++ c :: l2))).*2
     = c :: l1 ++ l2
  /\ exists r,
       _smart_fallback_selection rnd user_request l h = (Py.Return r, h)
       /\ (c :: l1 ++ l2) !! (choice_draw rnd mod (3 `min` length (l1 ++ c :: l2)))
          = Some r
       /\ (choice_draw rnd mod (3 `min` length (l1 ++ c :: l2)) = 0 -> r = c).
Proof.
  intros Hl Hzero Hcat Huser Hothers Hc Hrest.
  set (u := str_lower user_request).
  set (level := fun r : gmap string string => ((inject_Z 0 + 0)%Q, r)).
  assert (Hpc : category_points u (restaurant_text c) = 5%Z).
  { rewrite (category_points_single u _ category) by done. by rewrite Hc. }
  assert (Hpr : forall r, r ∈ l1 ++ l2 ->
                          category_points u (restaurant_text r) = 0%Z).
  { intros r Hr. rewrite (category_points_single u _ category) by done.
    rewrite Forall_forall in Hrest. by rewrite (Hrest r Hr). }
  assert (Hsorted : sort_desc (score_all rnd u (l1 ++ c :: l2))
                    = ((inject_Z 5 + 0)%Q, c) :: (level <$> l1) ++ (level <$> l2)).
  { rewrite score_all_no_jitter, fmap_app, fmap_cons, Hpc by done.
    assert (forall l', l' ⊆ l1 ++ l2 ->
              (fun r => ((inject_Z (category_points u (restaurant_text r)) + 0)%Q, r))
                <$> l' = level <$> l') as Hlevel.
    { intros l' Hsub. apply list_fmap_ext. intros i r Hi.
      unfold level. rewrite Hpr; [done |].
      apply Hsub. by apply list_elem_of_lookup_2 in Hi. }
    rewrite (Hlevel l1), (Hlevel l2)
      by (intros r Hr; apply elem_of_app; auto).
    apply (sort_desc_one_above _ _ _ (inject_Z 0 + 0)%Q); [| done ..].
    rewrite <- fmap_app. apply Forall_fmap, Forall_true. done. }
  split; [| split; [| split]].
  - unfold score. fold u. by rewrite Hpc, Hzero.
  - intros i r Hr. unfold score. fold u. by rewrite Hpr, Hzero.
  - fold u. rewrite Hsorted. rewrite fmap_cons, fmap_app, <- !list_fmap_compose.
    simpl. by rewrite !list_fmap_id.
  - unfold _smart_fallback_selection. fold u.
    rewrite bind_run, (load_at _ _ _ Hl), Hsorted.
    rewrite bind_run, (getitem_run _ 0 ((inject_Z 5 + 0)%Q, c)) by done.
    change (Qlt_bool 0 ((inject_Z 5 + 0)%Q, c).1) with true. cbv iota.
    set (sorted := ((inject_Z 5 + 0)%Q, c) :: (level <$> l1) ++ (level <$> l2)).
    assert (Hlen : length sorted = length (l1 ++ c :: l2)).
    { unfold sorted. simpl. rewrite !length_app, !length_fmap. simpl. lia. }
    destruct (random_choice_run (choice_draw rnd)
                (take (3 `min` length sorted) sorted) h)
      as (chosen & Hrun & Hchosen); [done |].
    exists chosen.2. rewrite bind_run, Hrun.
    assert (Htake : length (take (3 `min` length sorted) sorted)
                    = 3 `min` length (l1 ++ c :: l2))
      by (rewrite length_take; lia).
    rewrite Htake in Hchosen.
    apply lookup_take_Some in Hchosen as [Hchosen _].
    assert (Hsnd : sorted.*2 = c :: l1 ++ l2).
    { unfold sorted. rewrite fmap_cons, fmap_app, <- !list_fmap_compose.
      simpl. by rewrite !list_fmap_id. }
    assert (Hpick : (c :: l1 ++ l2)
                      !! (choice_draw rnd mod (3 `min` length (l1 ++ c :: l2)))
                    = Some chosen.2).
    { rewrite <- Hsnd, list_lookup_fmap, Hchosen. done. }
    split; [done |]. split; [done |].
    intros Hzero_pos. rewrite Hzero_pos in Hpick. by injection Hpick.
Qed.

End FallbackUniqueMatch.

Lemma romantic_only (other : string * (list string * list string)) :
  other ∈ keywords_map -> other <> romantic ->
  Str.any_in other.2.1 (lower_uk "Романтика") = false.
Proof.
  unfold keywords_map. rewrite !elem_of_cons, elem_of_nil. intros Hin Hne.
  repeat (destruct Hin as [-> | Hin]; [first [done | reflexivity] |]). done.
Qed.

Lemma fallback_single_match_top3_witness :
  exists r,
    _smart_fallback_selection (H:=lower_uk) (oracle_of (Py.Return "") 0 3)
      "Романтика" 0 [[loud_place; date_place; sushi_bar]]
    = (Py.Return r, [[loud_place; date_place; sushi_bar]])
    /\ [date_place; loud_place; sushi_bar] !! 0 = Some r
    /\ (0 = 0 -> r = date_place).
Proof.
  apply (fallback_single_match_top3 (H:=lower_uk) (oracle_of (Py.Return "") 0 3)
           "Романтика" 0 [[loud_place; date_place; sushi_bar]]
           [loud_place] date_place [sushi_bar] romantic).
  - reflexivity.
  - reflexivity.
  - by left.
  - reflexivity.
  - apply romantic_only.
  - reflexivity.
  - repeat constructor.
Defined.

(** C6 as the specification words it does not hold: under its hypotheses the
    matching candidate is not always the one returned.  With two candidates
    and the draw of [random.choice] at 1, the other candidate comes out. *)
Lemma fallback_single_match_counterexample :
  ~ (forall rnd user_request l h l1 c l2 category,
       h !! l = Some (l1 ++ c :: l2) ->
       (forall i, jitter rnd i = 0%Q) ->
       category ∈ keywords_map ->
       Str.any_in category.2.1 (lower_uk user_request) = true ->
       (forall other, other ∈ keywords_map -> other <> category ->
                      Str.any_in other.2.1 (lower_uk user_request) = false) ->
       Str.any_in category.2.2 (restaurant_text (H:=lower_uk) c) = true ->
       Forall (fun r => Str.any_in category.2.2 (restaurant_text (H:=lower_uk) r) = false)
              (l1 ++ l2) ->
       _smart_fallback_selection (H:=lower_uk) rnd user_request l h
       = (Py.Return c, h)).
Proof.
  intros Hclaim.
  specialize (Hclaim (oracle_of (Py.Return "") 0 1) "Романтика" 0
                [[date_place; loud_place]] [] date_place [loud_place] romantic
                eq_refl (fun _ => eq_refl)).
  assert (Hrun : _smart_fallback_selection (H:=lower_uk)
                   (oracle_of (Py.Return "") 0 1) "Романтика" 0
                   [[date_place; loud_place]]
                 = (Py.Return loud_place, [[date_place; loud_place]]))
    by (vm_compute; reflexivity).
  rewrite Hrun in Hclaim.
  assert (Hsame : (Py.Return loud_place, [[date_place; loud_place]])
                  = (Py.Return date_place, [[date_place; loud_place]])).
  { apply Hclaim.
    - by left.
    - reflexivity.
    - apply romantic_only.
    - reflexivity.
    - repeat constructor. }
  assert (Hname : loud_place !! "name" = date_place !! "name") by congruence.
  vm_compute in Hname. discriminate.
Qed.

(** ** [get_recommendation] *)

Lemma list_copy_run x h items :
  h !! x = Some items -> Py.list_copy x h = (Py.Return (length h), h ++ [items]).
Proof. intros Hx. unfold Py.list_copy, Py.alloc. by rewrite Hx. Qed.

Section Recommend.
Context `{StrLower}.

(** The result of [_filter_by_menu] is a non-empty part of a non-empty
    list, and the objects that existed before are untouched. *)
Lemma filter_by_menu_frame user_request l h items :
  h !! l = Some items -> items <> [] ->
  exists l' extra out,
    _filter_by_menu user_request l h = (Py.Return l', h ++ extra)
    /\ (h ++ extra) !! l' = Some out /\ out <> [] /\ out ⊆ items.
Proof.
  intros Hl Hne. rewrite filter_by_menu_result, Hl. simpl.
  destruct (decide _) as [Hdet | Hno].
  - destruct (filter (menu_matches user_request) items) as [|r kept] eqn:Hkept.
    + exists l, [[]], items. by split; [| split; [apply lookup_old_object |]].
    + exists (length h), [r :: kept], (r :: kept).
      split; [done |]. split; [apply lookup_new_object |]. split; [done |].
      rewrite <- Hkept. intros r' Hr'. by apply list_elem_of_filter in Hr' as [_ ?].
  - exists l, [], items. rewrite app_nil_r. by repeat split.
Qed.

Lemma fallback_selection_dict_run self rnd user_request h cat :
  h !! restaurants_data self = Some cat -> cat <> [] ->
  exists r, _fallback_selection_dict self rnd user_request h
            = (Py.Return (recommendation_dict r), h)
            /\ r ∈ cat.
Proof.
  intros Hcat Hne.
  destruct (smart_fallback_selection_run rnd user_request _ h cat Hcat Hne)
    as (r & Hrun & Hr).
  exists r. unfold _fallback_selection_dict. by rewrite bind_run, Hrun.
Qed.

(** The heap when the ranking call is made: the catalog has been copied,
    the copy shuffled and filtered. *)
Lemma get_recommendation_until_call self rnd user_request h r0 cat fl h3 :
  h !! restaurants_data self = Some (r0 :: cat) ->
  _filter_by_menu user_request (length h)
    (h ++ [Py.shuffle_loop (shuffle_draw rnd) (length (r0 :: cat) - 1) (r0 :: cat)])
  = (Py.Return fl, h3) ->
  get_recommendation self rnd user_request h =
  Py.try_except
    (response ← Py.external (ranking_call rnd);
     filtered ← Py.load fl;
     chosen_restaurant ←
       match validated_choice (Str.strip response) (length filtered) with
       | Some choice_num => Py.getitem filtered (Z.to_nat choice_num)
       | None => _smart_fallback_selection rnd user_request fl
       end;
     mret (Some (recommendation_dict chosen_restaurant)))
    (fun _ =>
       recommendation ← _fallback_selection_dict self rnd user_request;
       mret (Some recommendation))
    h3.
Proof.
  intros Hcat Hfilter. unfold get_recommendation, Py.try_except.
  rewrite bind_run, (load_at _ _ _ Hcat).
  rewrite bind_run, (list_copy_run _ _ _ Hcat).
  rewrite bind_run, random_shuffle_new.
  rewrite bind_run, Hfilter.
  match goal with
  | |- (let (o, h') := ?body in _) = _ => destruct body as [[a | e] h4]
  end; [done | by destruct e].
Qed.

Lemma get_recommendation_raised self rnd user_request h r0 cat fl h3 e :
  h !! restaurants_data self = Some (r0 :: cat) ->
  _filter_by_menu user_request (length h)
    (h ++ [Py.shuffle_loop (shuffle_draw rnd) (length (r0 :: cat) - 1) (r0 :: cat)])
  = (Py.Return fl, h3) ->
  ranking_call rnd = Py.Raise e ->
  get_recommendation self rnd user_request h =
  (recommendation ← _fallback_selection_dict self rnd user_request;
   mret (Some recommendation)) h3.
Proof.
  intros Hcat Hfilter Hcall.
  rewrite (get_recommendation_until_call _ _ _ _ _ _ _ _ Hcat Hfilter).
  unfold Py.try_except. rewrite bind_run. unfold Py.external. by rewrite Hcall.
Qed.

Lemma get_recommendation_answered self rnd user_request h r0 cat fl h3 out text :
  h !! restaurants_data self = Some (r0 :: cat) ->
  _filter_by_menu user_request (length h)
    (h ++ [Py.shuffle_loop (shuffle_draw rnd) (length (r0 :: cat) - 1) (r0 :: cat)])
  = (Py.Return fl, h3) ->
  h3 !! fl = Some out -> out <> [] ->
  ranking_call rnd = Py.Return text ->
  exists r,
    get_recommendation self rnd user_request h
    = (Py.Return (Some (recommendation_dict r)), h3)
    /\ r ∈ out
    /\ match validated_choice (Str.strip text) (length out) with
       | Some choice_num => out !! Z.to_nat choice_num = Some r
       | None => _smart_fallback_selection rnd user_request fl h3 = (Py.Return r, h3)
       end.
Proof.
  intros Hcat Hfilter Hout Hne Hcall.
  rewrite (get_recommendation_until_call _ _ _ _ _ _ _ _ Hcat Hfilter).
  unfold Py.try_except. rewrite bind_run. unfold Py.external. rewrite Hcall.
  rewrite bind_run, (load_at _ _ _ Hout), bind_run.
  destruct (validated_choice _ _) as [k|] eqn:Hchoice.
  - apply validated_choice_range in Hchoice.
    destruct (lookup_lt_is_Some_2 out (Z.to_nat k)) as [r Hr]; [lia |].
    exists r. rewrite (getitem_run _ _ r) by done.
    split; [done |]. split; [| done]. by apply list_elem_of_lookup_2 in Hr.
  - destruct (smart_fallback_selection_run rnd user_request fl h3 out Hout Hne)
      as (r & Hrun & Hr).
    exists r. by rewrite Hrun.
Qed.

(** One call on a non-empty catalog: a dictionary built from one record of
    the catalog comes back, and the heap has only grown. *)
Lemma get_recommendation_run self rnd user_request h cat :
  h !! restaurants_data self = Some cat -> cat <> [] ->
  exists r extra,
    get_recommendation self rnd user_request h
    = (Py.Return (Some (recommendation_dict r)), h ++ extra)
    /\ r ∈ cat.
Proof.
  intros Hcat Hne. destruct cat as [|r0 cat]; [done |].
  set (shuffled := Py.shuffle_loop (shuffle_draw rnd) (length (r0 :: cat) - 1) (r0 :: cat)).
  assert (Hshuffled : shuffled ≡ₚ r0 :: cat) by apply shuffle_loop_perm.
  destruct (filter_by_menu_frame user_request (length h) (h ++ [shuffled]) shuffled)
    as (fl & extra & out & Hfilter & Hout & Hout_ne & Hsub).
  { apply lookup_new_object. }
  { intros Hnil. rewrite Hnil in Hshuffled. by apply Permutation_nil_cons in Hshuffled. }
  rewrite <- app_assoc in Hfilter, Hout.
  destruct (ranking_call rnd) as [text | e] eqn:Hcall.
  - destruct (get_recommendation_answered self rnd user_request h r0 cat fl _ out text
                Hcat Hfilter Hout Hout_ne Hcall) as (r & Hrun & Hr & _).
    exists r, ([shuffled] ++ extra). split; [done |].
    rewrite <- Hshuffled. by apply Hsub.
  - rewrite (get_recommendation_raised _ _ _ _ _ _ _ _ e Hcat Hfilter Hcall).
    destruct (fallback_selection_dict_run self rnd user_request
                (h ++ [shuffled] ++ extra) (r0 :: cat)) as (r & Hrun & Hr).
    { by apply lookup_old_object. }
    { done. }
    exists r, ([shuffled] ++ extra). by rewrite bind_run, Hrun.
Qed.

Lemma get_recommendation_empty self rnd user_request h :
  default [] (h !! restaurants_data self) = [] ->
  get_recommendation self rnd user_request h = (Py.Return None, h).
Proof.
  intros Hcat. unfold get_recommendation, Py.try_except.
  by rewrite bind_run, load_run, Hcat.
Qed.

End Recommend.

(** ** The dictionary returned *)

Lemma photo_guard (photo_url : string) :
  (if Str.is_empty photo_url then photo_url
   else _convert_google_drive_url photo_url)
  = _convert_google_drive_url photo_url.
Proof. by destruct photo_url. Qed.

Lemma recommendation_dict_lookup chosen key placeholder :
  (key, placeholder) ∈ placeholders ->
  recommendation_dict chosen !! key = Some (field_value chosen key placeholder).
Proof.
  unfold placeholders. rewrite !elem_of_cons, elem_of_nil. intros Hin.
  unfold recommendation_dict, field_value. rewrite photo_guard.
  repeat (destruct Hin as [[= -> ->] | Hin]; [by simplify_map_eq |]). done.
Qed.

Lemma recommendation_dict_dom chosen :
  dom (recommendation_dict chosen) = list_to_set placeholders.*1.
Proof.
  unfold recommendation_dict. rewrite dom_list_to_map_L. done.
Qed.

(** C9, as the code has it.  In the dictionary returned, a field absent from
    the chosen record holds the default of the table [placeholders]: a fixed
    non-empty text for [name], [address], [socials], [vibe], [aim] and
    [cuisine], the empty string for [menu], [menu_url] and [photo]; a field
    that is present holds its value, the photo after
    [_convert_google_drive_url]; the dictionary has these nine keys.  The
    record itself is a record of the catalog, as loaded, and the call
    returns. *)
Theorem recommendation_dict_placeholders `{StrLower} :
  (forall chosen key placeholder,
      (key, placeholder) ∈ placeholders -> chosen !! key = None ->
      recommendation_dict chosen !! key = Some placeholder)
  /\ (forall key placeholder,
      (key, placeholder) ∈ placeholders ->
      placeholder = "" <-> key ∈ ["menu"; "menu_url"; "photo"])
  /\ (forall chosen key placeholder value,
      (key, placeholder) ∈ placeholders -> chosen !! key = Some value ->
      recommendation_dict chosen !! key
      = Some (if decide (key = "photo")
              then _convert_google_drive_url value else value))
  /\ (forall chosen,
      dom (recommendation_dict chosen) = list_to_set placeholders.*1)
  /\ (forall self rnd user_request h cat,
      h !! restaurants_data self = Some cat -> cat <> [] ->
      exists r extra,
        get_recommendation self rnd user_request h
        = (Py.Return (Some (recommendation_dict r)), h ++ extra)
        /\ r ∈ cat).
Proof.
  split; [| split; [| split; [| split]]].
  - intros chosen key placeholder Hin Hnone.
    rewrite (recommendation_dict_lookup _ _ placeholder Hin).
    unfold field_value, dict_get. rewrite Hnone.
    revert Hin. unfold placeholders. rewrite !elem_of_cons, elem_of_nil.
    intros Hin. repeat (destruct Hin as [[= -> ->] | Hin]; [reflexivity |]). done.
  - intros key placeholder. unfold placeholders.
    rewrite !elem_of_cons, !elem_of_nil. intros Hin.
    repeat (destruct Hin as [[= -> ->] | Hin];
            [split;
             [first [discriminate | intros _; auto 6]
             | first [done | intros [? | [? | [? | []]]]; discriminate] ] |]).
    done.
  - intros chosen key placeholder value Hin Hsome.
    rewrite (recommendation_dict_lookup _ _ placeholder Hin).
    unfold field_value, dict_get. by rewrite Hsome.
  - apply recommendation_dict_dom.
  - apply get_recommendation_run.
Qed.

Lemma recommendation_dict_placeholders_witness :
  recommendation_dict sushi_bar !! "address" = Some "Адреса не вказана".
Proof.
  apply (proj1 (recommendation_dict_placeholders (H:=lower_uk))).
  - apply elem_of_cons. right. apply elem_of_cons. by left.
  - reflexivity.
Defined.

(** C9 as the specification words it does not hold for [menu], [menu_url]
    and [photo]: absent, they become the empty string, which is no
    readable placeholder. *)
Lemma recommendation_dict_placeholders_counterexample :
  ~ (forall chosen key,
       key ∈ placeholders.*1 -> chosen !! key = None ->
       exists text, recommendation_dict chosen !! key = Some text /\ text <> "").
Proof.
  intros Hclaim.
  destruct (Hclaim sushi_bar "menu_url") as (text & Htext & Hreadable).
  - simpl. rewrite !elem_of_cons. auto 10.
  - reflexivity.
  - vm_compute in Htext. by injection Htext as <-.
Qed.

Section RecommendClaims.
Context `{StrLower}.

(** C2. On a non-empty catalog, for every request and whatever the
    environment does (shuffle, answer or failure of the ranking call,
    jitter, random choice), [get_recommendation] returns a dictionary (no
    exception, not [None]); the dictionary is built from one record [r] of
    the catalog: each of its nine fields is the field of [r], or the default
    when [r] lacks it, the photo having gone through
    [_convert_google_drive_url]. *)
Theorem get_recommendation_from_catalog self rnd user_request h cat :
  h !! restaurants_data self = Some cat -> cat <> [] ->
  exists r extra d,
    get_recommendation self rnd user_request h = (Py.Return (Some d), h ++ extra)
    /\ r ∈ cat
    /\ d = recommendation_dict r
    /\ dom d = list_to_set placeholders.*1
    /\ forall key placeholder,
         (key, placeholder) ∈ placeholders ->
         d !! key = Some (field_value r key placeholder).
Proof.
  intros Hcat Hne.
  destruct (get_recommendation_run self rnd user_request h cat Hcat Hne)
    as (r & extra & Hrun & Hr).
  exists r, extra, (recommendation_dict r).
  split; [done |]. split; [done |]. split; [done |].
  split; [apply recommendation_dict_dom |].
  intros key placeholder. apply recommendation_dict_lookup.
Qed.

(** C3. On an empty catalog [get_recommendation] returns [None] for every
    request: a value, not an exception, and the heap is as before. *)
Theorem get_recommendation_empty_catalog self rnd user_request h :
  h !! restaurants_data self = Some [] ->
  get_recommendation self rnd user_request h = (Py.Return None, h).
Proof.
  intros Hcat. apply get_recommendation_empty. by rewrite Hcat.
Qed.

(** C10. A call of [get_recommendation] leaves every list object that
    existed before the call as it was (new objects are only added); in
    particular the catalog behind [self.restaurants_data] holds the same
    records in the same order after the call: the shuffle works on the
    copy. *)
Theorem get_recommendation_keeps_catalog self rnd user_request h :
  (exists extra, (get_recommendation self rnd user_request h).2 = h ++ extra)
  /\ (forall l items,
        h !! l = Some items ->
        (get_recommendation self rnd user_request h).2 !! l = Some items)
  /\ (forall cat,
        h !! restaurants_data self = Some cat ->
        (get_recommendation self rnd user_request h).2 !! restaurants_data self
        = Some cat).
Proof.
  assert (Hgrow : exists extra,
             (get_recommendation self rnd user_request h).2 = h ++ extra).
  { destruct (default [] (h !! restaurants_data self)) as [|r0 cat] eqn:Hdata.
    - exists []. by rewrite get_recommendation_empty, app_nil_r.
    - destruct (h !! restaurants_data self) as [cat'|] eqn:Hcat; [| done].
      simpl in Hdata. subst cat'.
      destruct (get_recommendation_run self rnd user_request h (r0 :: cat) Hcat)
        as (r & extra & Hrun & _); [done |].
      exists extra. by rewrite Hrun. }
  split; [done |].
  destruct Hgrow as [extra ->].
  split; [| intros cat]; intros; by apply lookup_old_object.
Qed.

End RecommendClaims.

Lemma get_recommendation_from_catalog_witness :
  exists r extra d,
    get_recommendation (H:=lower_uk) bot0 (oracle_of (Py.Return "2") 1 0)
      "шукаю піцу" [[sushi_bar; pizza_place]]
    = (Py.Return (Some d), [[sushi_bar; pizza_place]] ++ extra)
    /\ r ∈ [sushi_bar; pizza_place]
    /\ d = recommendation_dict r
    /\ dom d = list_to_set placeholders.*1
    /\ forall key placeholder,
         (key, placeholder) ∈ placeholders ->
         d !! key = Some (field_value r key placeholder).
Proof.
  apply (get_recommendation_from_catalog (H:=lower_uk)); [reflexivity | done].
Defined.

Lemma get_recommendation_empty_catalog_witness :
  get_recommendation (H:=lower_uk) bot0 (oracle_of (Py.Return "1") 1 0)
    "шукаю піцу" [[]]
  = (Py.Return None, [[]]).
Proof.
  apply (get_recommendation_empty_catalog (H:=lower_uk)). reflexivity.
Defined.

Lemma get_recommendation_keeps_catalog_witness :
  (get_recommendation (H:=lower_uk) bot0 (oracle_of (Py.Return "1") 1 0)
     "шукаю піцу" [[sushi_bar; pizza_place]]).2 !! 0
  = Some [sushi_bar; pizza_place].
Proof.
  apply (proj2 (proj2 (get_recommendation_keeps_catalog (H:=lower_uk) bot0
                         (oracle_of (Py.Return "1") 1 0) "шукаю піцу"
                         [[sushi_bar; pizza_place]]))).
  reflexivity.
Defined.

(** ** The scenario of the specification *)

Lemma scenario_filter rnd :
  exists shuffled,
    Py.shuffle_loop (shuffle_draw rnd) (length [sushi_bar; pizza_place] - 1)
      [sushi_bar; pizza_place] = shuffled
    /\ _filter_by_menu (H:=lower_uk) "шукаю піцу" 1
         ([[sushi_bar; pizza_place]] ++ [shuffled])
       = (Py.Return 2, [[sushi_bar; pizza_place]; shuffled; [pizza_place]]).
Proof.
  cbn [Py.shuffle_loop length Nat.sub].
  destruct (shuffle_draw rnd 1 mod (1 + 1)) as [|[|n]].
  - exists [pizza_place; sushi_bar]. split; [reflexivity | by vm_compute].
  - exists [sushi_bar; pizza_place]. split; [reflexivity | by vm_compute].
  - exists [sushi_bar; pizza_place]. split; [reflexivity | by vm_compute].
Qed.

(** C1 on the scenario of the specification: catalog [Sushi Bar, Pizza
    Place], request "шукаю піцу".  When the ranking call times out (or
    fails), the handler runs [_smart_fallback_selection] on the whole
    catalog, not on the filtered list, and for jitter 1 and draw 0 the
    recommendation is Sushi Bar.  When the call answers, whatever the
    answer, the choice is made in the filtered list and the recommendation
    is Pizza Place. *)
Theorem timeout_fallback_skips_menu_filter :
  (get_recommendation (H:=lower_uk) bot0
     (oracle_of (Py.Raise Py.TimeoutError) 1 0) "шукаю піцу"
     [[sushi_bar; pizza_place]]).1
  = Py.Return (Some (recommendation_dict sushi_bar))
  /\ (get_recommendation (H:=lower_uk) bot0
        (oracle_of (Py.Raise Py.OtherException) 1 0) "шукаю піцу"
        [[sushi_bar; pizza_place]]).1
     = Py.Return (Some (recommendation_dict sushi_bar))
  /\ recommendation_dict sushi_bar !! "name" = Some "Sushi Bar"
  /\ recommendation_dict pizza_place !! "name" = Some "Pizza Place"
  /\ (forall rnd text,
        ranking_call rnd = Py.Return text ->
        (get_recommendation (H:=lower_uk) bot0 rnd "шукаю піцу"
           [[sushi_bar; pizza_place]]).1
        = Py.Return (Some (recommendation_dict pizza_place))).
Proof.
  split; [by vm_compute |]. split; [by vm_compute |].
  split; [by vm_compute |]. split; [by vm_compute |].
  intros rnd text Hcall.
  destruct (scenario_filter rnd) as (shuffled & Hshuffled & Hfilter).
  rewrite <- Hshuffled in Hfilter.
  destruct (get_recommendation_answered (H:=lower_uk) bot0 rnd "шукаю піцу"
              [[sushi_bar; pizza_place]] sushi_bar [pizza_place] 2 _
              [pizza_place] text eq_refl Hfilter eq_refl)
    as (r & Hrun & Hr & _); [done | done |].
  rewrite Hrun. apply list_elem_of_singleton in Hr. by subst r.
Qed.

Lemma timeout_fallback_skips_menu_filter_witness :
  (get_recommendation (H:=lower_uk) bot0
     (oracle_of (Py.Return "no clear answer") 1 0) "шукаю піцу"
     [[sushi_bar; pizza_place]]).1
  = Py.Return (Some (recommendation_dict pizza_place)).
Proof.
  apply (proj2 (proj2 (proj2 (proj2 timeout_fallback_skips_menu_filter)))
           (oracle_of (Py.Return "no clear answer") 1 0) "no clear answer").
  reflexivity.
Defined.

(** * Further properties of the code *)

(** ** [_convert_google_drive_url]: share links *)

Lemma take_while_run f (s rest : string) :
  Str.all f s = true ->
  match rest with EmptyString => true | String c _ => negb (f c) end = true ->
  Str.take_while f (s +:+ rest) = s.
Proof.
  intros Hs Hrest. induction s as [|c s IH].
  - destruct rest as [|d rest]; [done |]. simpl.
    apply negb_true_iff in Hrest. by rewrite Hrest.
  - apply andb_prop in Hs as [Hc Hs]. rewrite append_cons. simpl.
    by rewrite Hc, IH.
Qed.

(** X1. A share link [https://drive.google.com/file/d/<id><rest>], where
    [<id>] is a non-empty run of letters, digits, hyphens and underscores
    and [<rest>] is empty or starts with another character, is rewritten to
    the direct link of [<id>]; whatever follows the identifier is dropped. *)
Theorem convert_share_link (file_id rest : string) :
  Str.all is_file_id_char file_id = true ->
  Str.is_empty file_id = false ->
  match rest with
  | EmptyString => true
  | String c _ => negb (is_file_id_char c)
  end = true ->
  _convert_google_drive_url
    ("https://drive.google.com/file/d/" +:+ file_id +:+ rest)
  = "https://drive.google.com/uc?export=view&id=" +:+ file_id.
Proof.
  intros Hid Hne Hrest. unfold _convert_google_drive_url.
  cbv [String.append].
  match goal with
  | |- (if ?guard then _ else _) = _ =>
      assert (guard = false) as -> by reflexivity
  end.
  repeat (rewrite search_file_id_cons;
          match goal with
          | |- context [Str.startswith ?p (String ?c ?t)] =>
              change (Str.startswith p (String c t)) with false
          end; cbv iota).
  rewrite search_file_id_cons.
  match goal with
  | |- context [Str.startswith ?p (String ?c ?t)] =>
      change (Str.startswith p (String c t)) with true
  end.
  cbv iota zeta. cbn [Str.drop].
  fold (String.append file_id rest).
  rewrite (take_while_run is_file_id_char file_id rest Hid Hrest), Hne.
  reflexivity.
Qed.

Lemma convert_share_link_witness :
  _convert_google_drive_url
    "https://drive.google.com/file/d/1a-B_c9/view?usp=sharing"
  = "https://drive.google.com/uc?export=view&id=1a-B_c9".
Proof.
  apply (convert_share_link "1a-B_c9" "/view?usp=sharing"); reflexivity.
Defined.

(** ** The validated choice is an index of the list *)

(** X2. A choice read from the answer always designates an existing
    candidate, so [filtered_restaurants[choice_num]] cannot raise; and with
    no candidate at all every answer is a failure. *)
Theorem validated_choice_in_bounds :
  (forall (choice_text : string) (items : list (gmap string string)) choice_num,
      validated_choice choice_text (length items) = Some choice_num ->
      exists r, items !! Z.to_nat choice_num = Some r
                /\ forall h, Py.getitem items (Z.to_nat choice_num) h = (Py.Return r, h))
  /\ (forall choice_text, validated_choice choice_text 0 = None).
Proof.
  split.
  - intros choice_text items k Hchoice.
    apply validated_choice_range in Hchoice.
    destruct (lookup_lt_is_Some_2 items (Z.to_nat k)) as [r Hr]; [lia |].
    exists r. split; [done |]. intros h. by apply getitem_run.
  - intros choice_text.
    destruct (validated_choice choice_text 0) as [k|] eqn:Hchoice; [| done].
    apply validated_choice_range in Hchoice. simpl in Hchoice. lia.
Qed.

Lemma validated_choice_in_bounds_witness :
  exists r, [sushi_bar; pizza_place] !! Z.to_nat 1 = Some r
            /\ forall h, Py.getitem [sushi_bar; pizza_place] (Z.to_nat 1) h
                         = (Py.Return r, h).
Proof.
  apply (proj1 validated_choice_in_bounds "take 2" [sushi_bar; pizza_place] 1%Z).
  reflexivity.
Defined.

(** ** [random.shuffle] works in place and permutes *)

(** X5. [random_shuffle] on the list object [x] replaces its contents by a
    permutation of them and leaves every other object, and the number of
    objects, as they were. *)
Theorem random_shuffle_in_place rnd x h items :
  h !! x = Some items ->
  exists shuffled,
    random_shuffle rnd x h = (Py.Return tt, <[x := shuffled]> h)
    /\ shuffled ≡ₚ items
    /\ <[x := shuffled]> h !! x = Some shuffled
    /\ length (<[x := shuffled]> h) = length h
    /\ forall y, y <> x -> <[x := shuffled]> h !! y = h !! y.
Proof.
  intros Hx.
  exists (Py.shuffle_loop (shuffle_draw rnd) (length items - 1) items).
  split; [| split; [apply shuffle_loop_perm | split; [| split]]].
  - unfold random_shuffle. by rewrite bind_run, (load_at _ _ items Hx).
  - apply list_lookup_insert_eq. by apply lookup_lt_Some in Hx.
  - apply length_insert.
  - intros y Hy. by apply list_lookup_insert_ne.
Qed.

Lemma random_shuffle_in_place_witness :
  exists shuffled,
    random_shuffle (oracle_of (Py.Return "") 0 0) 1
      [[sushi_bar]; [sushi_bar; pizza_place; date_place]]
    = (Py.Return tt, <[1 := shuffled]> [[sushi_bar]; [sushi_bar; pizza_place; date_place]])
    /\ shuffled ≡ₚ [sushi_bar; pizza_place; date_place]
    /\ <[1 := shuffled]> [[sushi_bar]; [sushi_bar; pizza_place; date_place]] !! 1
       = Some shuffled
    /\ length (<[1 := shuffled]> [[sushi_bar]; [sushi_bar; pizza_place; date_place]])
       = length [[sushi_bar]; [sushi_bar; pizza_place; date_place]]
    /\ forall y, y <> 1 ->
         <[1 := shuffled]> [[sushi_bar]; [sushi_bar; pizza_place; date_place]] !! y
         = [[sushi_bar]; [sushi_bar; pizza_place; date_place]] !! y.
Proof.
  apply (random_shuffle_in_place (oracle_of (Py.Return "") 0 0) 1
           [[sushi_bar]; [sushi_bar; pizza_place; date_place]]
           [sushi_bar; pizza_place; date_place]).
  reflexivity.
Defined.

(** ** The sort of the scored list *)

Lemma Qlt_bool_false x y : Qlt_bool x y = false <-> (y <= x)%Q.
Proof.
  unfold Qlt_bool. rewrite negb_false_iff. apply Qle_bool_iff.
Qed.

Lemma Qlt_bool_true x y : Qlt_bool x y = true <-> (x < y)%Q.
Proof.
  unfold Qlt_bool. rewrite negb_true_iff. split.
  - intros Hle. apply Qnot_le_lt. intros Hyx.
    apply Qle_bool_iff in Hyx. congruence.
  - intros Hlt. destruct (Qle_bool y x) eqn:Hle; [| done].
    apply Qle_bool_iff in Hle. by apply Qlt_not_le in Hlt.
Qed.

Lemma insert_desc_descending {A} (x : Q * A) (l : list (Q * A)) :
  descending l -> descending (insert_desc x l).
Proof.
  unfold descending. induction l as [|y l IH]; intros Hl; simpl.
  - repeat constructor.
  - apply StronglySorted_inv in Hl as [Hl Hy].
    destruct (Qlt_bool x.1 y.1) eqn:Hxy.
    + constructor; [by apply IH |].
      rewrite insert_desc_perm. constructor; [| done].
      apply Qlt_le_weak. by apply Qlt_bool_true.
    + apply Qlt_bool_false in Hxy.
      constructor; [by constructor |]. constructor; [done |].
      eapply Forall_impl; [exact Hy |]. intros z Hz. simpl in Hz.
      by apply (Qle_trans _ y.1).
Qed.

Lemma sort_desc_descending {A} (l : list (Q * A)) : descending (sort_desc l).
Proof.
  induction l as [|x l IH]; simpl; [constructor |].
  by apply insert_desc_descending.
Qed.

Lemma descending_lookup {A} (l : list (Q * A)) i j x y :
  descending l -> i < j -> l !! i = Some x -> l !! j = Some y -> (y.1 <= x.1)%Q.
Proof.
  unfold descending. intros Hdesc. revert i j.
  induction Hdesc as [|z rest Hrest IH Hz]; intros i j Hij Hi Hj; [done |].
  destruct j as [|j]; [lia |]. simpl in Hj. destruct i as [|i].
  - simpl in Hi. injection Hi as ->.
    rewrite Forall_forall in Hz. apply Hz.
    by apply list_elem_of_lookup_2 in Hj.
  - simpl in Hi. apply (IH i j); [lia | done | done].
Qed.

(** X6. The sort used on the scored list returns a permutation of its
    input in which no entry is followed, at any distance, by one of greater
    score; entries whose scores are all the same keep their order. *)
Theorem sort_desc_sorted_permutation {A} (l : list (Q * A)) :
  sort_desc l ≡ₚ l
  /\ descending (sort_desc l)
  /\ (forall i j x y,
        i < j -> sort_desc l !! i = Some x -> sort_desc l !! j = Some y ->
        Qlt_bool x.1 y.1 = false)
  /\ (forall k, Forall (fun x => x.1 = k) l -> sort_desc l = l).
Proof.
  split; [apply sort_desc_perm |]. split; [apply sort_desc_descending |]. split.
  - intros i j x y Hij Hi Hj. apply Qlt_bool_false.
    apply (descending_lookup (sort_desc l) i j);
      [apply sort_desc_descending | done ..].
  - intros k Hl. apply (sort_desc_level l k Hl).
    apply Qlt_bool_false. apply Qle_refl.
Qed.

Lemma sort_desc_sorted_permutation_witness :
  Qlt_bool (5%Q, "a").1 (1%Q, "b").1 = false.
Proof.
  apply (proj1 (proj2 (proj2 (sort_desc_sorted_permutation
                                [(1%Q, "b"); (5%Q, "a"); (1%Q, "c")]))) 0 1);
    [lia | reflexivity | reflexivity].
Defined.

(** ** [_filter_by_menu]: never empty, idempotent *)

Section FilterExtra.
Context `{StrLower}.

(** X3. Given a non-empty list, [_filter_by_menu] returns a non-empty list
    whose members all come from the input; it creates at most one list
    object and changes none that existed, the input list included. *)
Theorem filter_by_menu_never_empties user_request l h items :
  h !! l = Some items -> items <> [] ->
  exists l' extra out,
    _filter_by_menu user_request l h = (Py.Return l', h ++ extra)
    /\ (h ++ extra) !! l' = Some out
    /\ out <> [] /\ out ⊆ items
    /\ length extra <= 1
    /\ (h ++ extra) !! l = Some items.
Proof.
  intros Hl Hne. rewrite filter_by_menu_result, Hl. simpl.
  destruct (decide _) as [Hdet | Hno].
  - destruct (filter (menu_matches user_request) items) as [|r kept] eqn:Hkept.
    + exists l, [[]], items.
      split; [done |]. split; [by apply lookup_old_object |].
      split; [done |]. split; [done |].
      split; [simpl; lia | by apply lookup_old_object].
    + exists (length h), [r :: kept], (r :: kept).
      split; [done |]. split; [apply lookup_new_object |]. split; [done |].
      split; [| split; [simpl; lia | by apply lookup_old_object]].
      rewrite <- Hkept. intros r' Hr'. by apply list_elem_of_filter in Hr' as [_ ?].
  - exists l, [], items. rewrite app_nil_r.
    split; [done |]. split; [done |]. split; [done |]. split; [done |].
    split; [simpl; lia | done].
Qed.

(** X4. Filtering is idempotent on contents: applying [_filter_by_menu]
    with the same request to the list it returned gives a list with the
    same members in the same order. *)
Theorem filter_by_menu_idempotent user_request l h items :
  h !! l = Some items ->
  exists l1 h1 out l2 h2,
    _filter_by_menu user_request l h = (Py.Return l1, h1)
    /\ h1 !! l1 = Some out
    /\ _filter_by_menu user_request l1 h1 = (Py.Return l2, h2)
    /\ h2 !! l2 = Some out.
Proof.
  intros Hl. rewrite filter_by_menu_result, Hl. simpl.
  destruct (decide (dish_detected user_request)) as [Hdet | Hno].
  - destruct (filter (menu_matches user_request) items) as [|r kept] eqn:Hkept.
    + exists l, (h ++ [[]]), items, l, ((h ++ [[]]) ++ [[]]).
      assert (Hl' : (h ++ [[]]) !! l = Some items) by by apply lookup_old_object.
      split; [done |]. split; [done |]. split.
      * rewrite filter_by_menu_result, Hl'. simpl.
        rewrite decide_True by done. by rewrite Hkept.
      * by apply lookup_old_object.
    + exists (length h), (h ++ [r :: kept]), (r :: kept),
        (length (h ++ [r :: kept])), ((h ++ [r :: kept]) ++ [r :: kept]).
      split; [done |]. split; [apply lookup_new_object |]. split.
      * rewrite filter_by_menu_result, lookup_new_object. simpl.
        rewrite decide_True by done.
        rewrite <- Hkept, list_filter_filter.
        rewrite (list_filter_iff _ (menu_matches user_request)) by tauto.
        by rewrite Hkept.
      * apply lookup_new_object.
  - exists l, h, items, l, h. split; [done |]. split; [done |].
    split; [| done]. rewrite filter_by_menu_result. by rewrite decide_False.
Qed.

End FilterExtra.

Lemma filter_by_menu_never_empties_witness :
  exists l' extra out,
    _filter_by_menu (H:=lower_uk) "хочу бургер" 0 [[sushi_bar; pizza_place]]
    = (Py.Return l', [[sushi_bar; pizza_place]] ++ extra)
    /\ ([[sushi_bar; pizza_place]] ++ extra) !! l' = Some out
    /\ out <> [] /\ out ⊆ [sushi_bar; pizza_place]
    /\ length extra <= 1
    /\ ([[sushi_bar; pizza_place]] ++ extra) !! 0 = Some [sushi_bar; pizza_place].
Proof.
  apply (filter_by_menu_never_empties (H:=lower_uk)); [reflexivity | done].
Defined.

Lemma filter_by_menu_idempotent_witness :
  exists l1 h1 out l2 h2,
    _filter_by_menu (H:=lower_uk) "Суші, будь ласка" 0 [[sushi_bar; pizza_place]]
    = (Py.Return l1, h1)
    /\ h1 !! l1 = Some out
    /\ _filter_by_menu (H:=lower_uk) "Суші, будь ласка" l1 h1 = (Py.Return l2, h2)
    /\ h2 !! l2 = Some out.
Proof.
  apply (filter_by_menu_idempotent (H:=lower_uk) _ _ _ [sushi_bar; pizza_place]).
  reflexivity.
Defined.

(** ** [get_recommendation]: what the answer and the failure of the call do *)

Section RecommendExtra.
Context `{StrLower}.

(** The selection reads the list at [l] and nothing else of the heap. *)
Lemma smart_fallback_selection_reads rnd user_request l h h' :
  h !! l = h' !! l ->
  (_smart_fallback_selection rnd user_request l h).1
  = (_smart_fallback_selection rnd user_request l h').1.
Proof.
  intros Heq. unfold _smart_fallback_selection.
  rewrite !bind_run, !load_run, Heq.
  destruct (sort_desc _) as [|top rest]; [done |].
  rewrite !bind_run, !(getitem_run _ 0 top) by done.
  destruct (Qlt_bool 0 top.1).
  - rewrite !bind_run. unfold Py.random_choice, Py.getitem.
    match goal with
    | |- context [take ?n ?s !! ?i] => destruct (take n s !! i)
    end; reflexivity.
  - unfold Py.random_choice, Py.getitem.
    match goal with
    | |- context [default [] ?o !! ?i] => destruct (default [] o !! i)
    end; reflexivity.
Qed.

(** X9. When the request names a dish, the menu of at least one restaurant
    of the catalog matches and the ranking call answers, whatever the
    answer, the restaurant recommended is one whose menu matches. *)
Theorem answered_recommendation_has_dish self rnd user_request h cat text :
  h !! restaurants_data self = Some cat ->
  ranking_call rnd = Py.Return text ->
  dish_detected user_request ->
  (exists r, r ∈ cat /\ menu_matches user_request r) ->
  exists r extra,
    get_recommendation self rnd user_request h
    = (Py.Return (Some (recommendation_dict r)), h ++ extra)
    /\ r ∈ cat /\ menu_matches user_request r.
Proof.
  intros Hcat Hcall Hdet (r1 & Hr1 & Hm1).
  destruct cat as [|r0 cat]; [by inversion Hr1 |].
  set (shuffled := Py.shuffle_loop (shuffle_draw rnd) (length (r0 :: cat) - 1)
                     (r0 :: cat)).
  assert (Hshuffled : shuffled ≡ₚ r0 :: cat) by apply shuffle_loop_perm.
  assert (Hfilter : _filter_by_menu user_request (length h) (h ++ [shuffled])
                    = (Py.Return (length (h ++ [shuffled])),
                       (h ++ [shuffled]) ++ [filter (menu_matches user_request) shuffled])
                    /\ filter (menu_matches user_request) shuffled <> []).
  { rewrite filter_by_menu_result, lookup_new_object. simpl.
    rewrite decide_True by done.
    destruct (filter (menu_matches user_request) shuffled) as [|r kept] eqn:Hkept;
      [| done].
    assert (r1 ∈ filter (menu_matches user_request) shuffled) as Hin.
    { apply list_elem_of_filter. split; [done |]. by rewrite Hshuffled. }
    rewrite Hkept in Hin. by inversion Hin. }
  destruct Hfilter as [Hfilter Hkept].
  destruct (get_recommendation_answered self rnd user_request h r0 cat _ _
              (filter (menu_matches user_request) shuffled) text
              Hcat Hfilter (lookup_new_object _ _) Hkept Hcall)
    as (r & Hrun & Hr & _).
  exists r, ([shuffled] ++ [filter (menu_matches user_request) shuffled]).
  rewrite app_assoc. split; [done |].
  apply list_elem_of_filter in Hr as [Hm Hr]. by rewrite <- Hshuffled.
Qed.


(** X11. When the ranking call raises, whatever the exception, the
    restaurant recommended is the one that [_smart_fallback_selection]
    picks in the catalog itself, in catalog order: neither the shuffle nor
    the menu filter has a part in it. *)
Theorem failed_call_uses_whole_catalog self rnd user_request h cat e :
  h !! restaurants_data self = Some cat -> cat <> [] ->
  ranking_call rnd = Py.Raise e ->
  exists r extra,
    get_recommendation self rnd user_request h
    = (Py.Return (Some (recommendation_dict r)), h ++ extra)
    /\ _smart_fallback_selection rnd user_request (restaurants_data self) h
       = (Py.Return r, h).
Proof.
  intros Hcat Hne Hcall. destruct cat as [|r0 cat]; [done |].
  set (shuffled := Py.shuffle_loop (shuffle_draw rnd) (length (r0 :: cat) - 1)
                     (r0 :: cat)).
  assert (Hshuffled : shuffled ≡ₚ r0 :: cat) by apply shuffle_loop_perm.
  destruct (filter_by_menu_frame user_request (length h) (h ++ [shuffled]) shuffled)
    as (fl & extra & out & Hfilter & _).
  { apply lookup_new_object. }
  { intros Hnil. rewrite Hnil in Hshuffled.
    by apply Permutation_nil_cons in Hshuffled. }
  rewrite <- app_assoc in Hfilter.
  rewrite (get_recommendation_raised _ _ _ _ _ _ _ _ e Hcat Hfilter Hcall).
  assert (Hcat' : (h ++ [shuffled] ++ extra) !! restaurants_data self
                  = Some (r0 :: cat)) by by apply lookup_old_object.
  destruct (smart_fallback_selection_run rnd user_request _ _ _ Hcat' Hne)
    as (r & Hrun' & _).
  destruct (smart_fallback_selection_run rnd user_request _ _ _ Hcat Hne)
    as (r' & Hrun & _).
  pose proof (smart_fallback_selection_reads rnd user_request
                (restaurants_data self) h (h ++ [shuffled] ++ extra)) as Hsame.
  rewrite Hcat, Hcat', Hrun, Hrun' in Hsame. specialize (Hsame eq_refl).
  simpl in Hsame. injection Hsame as ->.
  exists r, ([shuffled] ++ extra). split; [| done].
  unfold _fallback_selection_dict. by rewrite !bind_run, Hrun'.
Qed.

End RecommendExtra.

Lemma answered_recommendation_has_dish_witness :
  exists r extra,
    get_recommendation (H:=lower_uk) bot0 (oracle_of (Py.Return "7") 1 0)
      "шукаю піцу" [[sushi_bar; pizza_place]]
    = (Py.Return (Some (recommendation_dict r)), [[sushi_bar; pizza_place]] ++ extra)
    /\ r ∈ [sushi_bar; pizza_place]
    /\ menu_matches (H:=lower_uk) "шукаю піцу" r.
Proof.
  apply (answered_recommendation_has_dish (H:=lower_uk) bot0
           (oracle_of (Py.Return "7") 1 0) "шукаю піцу"
           [[sushi_bar; pizza_place]] [sushi_bar; pizza_place] "7").
  - reflexivity.
  - reflexivity.
  - apply Exists_cons_hd. reflexivity.
  - exists pizza_place.
    split; [apply elem_of_cons; right; apply elem_of_cons; by left |].
    apply Exists_cons_hd. split; reflexivity.
Defined.


Lemma failed_call_uses_whole_catalog_witness :
  exists r extra,
    get_recommendation (H:=lower_uk) bot0
      (oracle_of (Py.Raise Py.TimeoutError) 1 1) "шукаю піцу"
      [[sushi_bar; pizza_place]]
    = (Py.Return (Some (recommendation_dict r)), [[sushi_bar; pizza_place]] ++ extra)
    /\ _smart_fallback_selection (H:=lower_uk)
         (oracle_of (Py.Raise Py.TimeoutError) 1 1) "шукаю піцу" 0
         [[sushi_bar; pizza_place]]
       = (Py.Return r, [[sushi_bar; pizza_place]]).
Proof.
  apply (failed_call_uses_whole_catalog (H:=lower_uk) bot0
           (oracle_of (Py.Raise Py.TimeoutError) 1 1) "шукаю піцу"
           [[sushi_bar; pizza_place]] [sushi_bar; pizza_place] Py.TimeoutError).
  - reflexivity.
  - done.
  - reflexivity.
Defined.

(** ** [_smart_fallback_selection]: who can be picked *)

Lemma filter_none {A} (P : A -> Prop) `{!forall x, Decision (P x)} (l : list A) :
  Forall (fun x => ~ P x) l -> filter P l = [].
Proof.
  induction 1 as [|x l Hx Hl IH]; [done |].
  by rewrite filter_cons_False.
Qed.

(** At most [j] entries satisfy [P] when none does from position [j] on. *)
Lemma filter_length_before {A} (P : A -> Prop) `{!forall x, Decision (P x)}
    (l : list A) j :
  Forall (fun x => ~ P x) (drop j l) -> length (filter P l) <= j.
Proof.
  intros Hdrop. rewrite <- (take_drop j l), filter_app, length_app.
  rewrite (filter_none P (drop j l)) by done. simpl.
  pose proof (length_filter P (take j l)). pose proof (firstn_le_length j l). lia.
Qed.

Lemma descending_from {A} (l : list (Q * A)) j s :
  descending l -> l !! j = Some s -> Forall (fun t => (t.1 <= s.1)%Q) (drop j l).
Proof.
  intros Hdesc Hj. apply Forall_forall. intros t Ht.
  apply list_elem_of_lookup_1 in Ht as [k Hk]. rewrite lookup_drop in Hk.
  destruct k as [|k].
  - rewrite Nat.add_0_r, Hj in Hk. injection Hk as <-. apply Qle_refl.
  - apply (descending_lookup l j (j + S k)); [done | lia | done | done].
Qed.

Lemma filter_imap_length {A B} (Q0 : A -> Prop) `{!forall x, Decision (Q0 x)}
    (f : nat -> A -> B) (items : list A) :
  length (filter (fun t : B * A => Q0 t.2) (imap (fun i r => (f i r, r)) items))
  = length (filter Q0 items).
Proof.
  revert f. induction items as [|r items IH]; intros f; [done |].
  rewrite imap_cons. destruct (decide (Q0 r)) as [Hr | Hr].
  - rewrite !filter_cons_True by done. simpl. f_equal. apply (IH (f ∘ S)).
  - rewrite !filter_cons_False by done. apply (IH (f ∘ S)).
Qed.

Lemma points_fold user_lower text table score :
  exists k, (0 <= k)%Z
            /\ foldl (points_step user_lower text) score table = (score + 5 * k)%Z.
Proof.
  revert score. induction table as [|entry table IH]; intros score; simpl.
  - exists 0%Z. lia.
  - destruct (IH (points_step user_lower text score entry)) as (k & Hk & ->).
    unfold points_step.
    destruct (Str.any_in entry.2.1 user_lower);
      [destruct (Str.any_in entry.2.2 text) |];
      [exists (k + 1)%Z | exists k | exists k]; lia.
Qed.

Section FallbackExtra.
Context `{StrLower}.

(** The points are a non-negative multiple of 5. *)
Lemma category_points_multiple user_lower text :
  exists k, (0 <= k)%Z /\ category_points user_lower text = (5 * k)%Z.
Proof.
  destruct (points_fold user_lower text keywords_map 0) as (k & Hk & Hfold).
  exists k. by split.
Qed.

(** The entry of restaurant [r] lies between its points and its points
    plus the bound of the jitter. *)
Lemma score_all_entry rnd user_lower items t lo hi :
  (forall i, lo <= jitter rnd i /\ jitter rnd i < hi)%Q ->
  t ∈ score_all rnd user_lower items ->
  t.2 ∈ items
  /\ (inject_Z (category_points user_lower (restaurant_text t.2)) + lo <= t.1)%Q
  /\ (t.1 < inject_Z (category_points user_lower (restaurant_text t.2)) + hi)%Q.
Proof.
  intros Hjit (i & r & -> & Hi)%elem_of_lookup_imap_1. simpl.
  destruct (Hjit i) as [Hlo Hhi].
  split; [by apply list_elem_of_lookup_2 in Hi |].
  unfold score. split; lra.
Qed.

(** Where the selection looks: among the first three of the sorted list
    when the best score is positive, anywhere in the list otherwise. *)
Lemma smart_fallback_selection_position rnd user_request l h items :
  h !! l = Some items -> items <> [] ->
  let sorted := sort_desc (score_all rnd (str_lower user_request) items) in
  exists r top,
    _smart_fallback_selection rnd user_request l h = (Py.Return r, h)
    /\ sorted !! 0 = Some top
    /\ (Qlt_bool 0 top.1 = true /\
        (exists j s, j < 3 /\ sorted !! j = Some s /\ s.2 = r)
        \/ Qlt_bool 0 top.1 = false /\
           (exists j, items !! j = Some r)).
Proof.
  intros Hl Hne sorted. unfold _smart_fallback_selection.
  rewrite bind_run, (load_at _ _ items Hl). fold sorted.
  destruct sorted as [|top rest] eqn:Hsorted.
  { pose proof (sort_desc_perm (score_all rnd (str_lower user_request) items)) as Hperm.
    fold sorted in Hperm. rewrite Hsorted in Hperm.
    apply Permutation_length in Hperm. unfold score_all in Hperm.
    rewrite length_imap in Hperm. by destruct items. }
  rewrite bind_run, (getitem_run _ 0 top) by done.
  destruct (Qlt_bool 0 top.1) eqn:Htop.
  - destruct (random_choice_run (choice_draw rnd)
                (take (3 `min` length (top :: rest)) (top :: rest)) h)
      as (chosen & Hrun & Hchosen); [done |].
    exists chosen.2, top. rewrite bind_run, Hrun.
    split; [done |]. split; [done |]. left. split; [done |].
    apply lookup_take_Some in Hchosen as [Hchosen Hlt].
    eexists _, chosen. split; [| split; [exact Hchosen | done]]. lia.
  - destruct (random_choice_run (choice_draw rnd) items h Hne)
      as (chosen & Hrun & Hchosen).
    exists chosen, top. split; [done |]. split; [done |]. right.
    split; [done |]. eauto.
Qed.


End FallbackExtra.

Section FallbackMatching.
Context `{StrLower}.

Lemma matched_points user_request r :
  category_matched user_request r ->
  (5 <= inject_Z (category_points (str_lower user_request) (restaurant_text r)))%Q.
Proof.
  unfold category_matched. intros Hpos.
  destruct (category_points_multiple (str_lower user_request) (restaurant_text r))
    as (k & Hk & Hpoints).
  change 5%Q with (inject_Z 5). rewrite <- Zle_Qle. lia.
Qed.

Lemma unmatched_points user_request r :
  ~ category_matched user_request r ->
  category_points (str_lower user_request) (restaurant_text r) = 0%Z.
Proof.
  unfold category_matched. intros Hno.
  destruct (category_points_multiple (str_lower user_request) (restaurant_text r))
    as (k & Hk & Hpoints).
  lia.
Qed.

(** X8. With jitter values in [0, 2), a restaurant that earns points always
    outranks one that earns none; so when at least three restaurants of the
    list earn points for the request, or all of them do, the restaurant
    returned by [_smart_fallback_selection] is one that earns points. *)
Theorem fallback_prefers_matching rnd user_request l h items :
  h !! l = Some items ->
  (forall i, 0 <= jitter rnd i /\ jitter rnd i < 2)%Q ->
  3 <= length (filter (category_matched user_request) items)
  \/ (items <> [] /\ Forall (category_matched user_request) items) ->
  exists r,
    _smart_fallback_selection rnd user_request l h = (Py.Return r, h)
    /\ r ∈ items /\ category_matched user_request r.
Proof.
  intros Hl Hjit Hmany.
  set (all := score_all rnd (str_lower user_request) items).
  pose proof (sort_desc_perm all) as Hperm.
  pose proof (sort_desc_descending all) as Hdesc.
  assert (Hsome : exists m, m ∈ items /\ category_matched user_request m).
  { destruct Hmany as [Hcount | [Hne Hall]].
    - destruct (filter (category_matched user_request) items) as [|m rest] eqn:Hf;
        [simpl in Hcount; lia |].
      exists m. assert (m ∈ m :: rest) as Hin by left.
      rewrite <- Hf in Hin. by apply list_elem_of_filter in Hin as [? ?].
    - destruct items as [|m items]; [done |].
      exists m. split; [left |]. by apply Forall_cons in Hall as [? _]. }
  destruct Hsome as (m & Hm & Hmatched).
  assert (Hne : items <> []) by (intros ->; by inversion Hm).
  destruct (smart_fallback_selection_position rnd user_request l h items Hl Hne)
    as (r & top & Hrun & Htop & Hwhere). fold all in Htop, Hwhere.
  assert (Hmax : forall t, t ∈ all -> (t.1 <= top.1)%Q).
  { intros t Ht. rewrite <- Hperm in Ht.
    apply list_elem_of_lookup_1 in Ht as [k Hk]. destruct k as [|k].
    - rewrite Htop in Hk. injection Hk as <-. apply Qle_refl.
    - apply (descending_lookup (sort_desc all) 0 (S k)); [done | lia | done | done]. }
  assert (Hbounds : forall t, t ∈ all ->
            t.2 ∈ items
            /\ (inject_Z (category_points (str_lower user_request)
                            (restaurant_text t.2)) + 0 <= t.1)%Q
            /\ (t.1 < inject_Z (category_points (str_lower user_request)
                                  (restaurant_text t.2)) + 2)%Q).
  { intros t Ht. by apply (score_all_entry rnd _ items). }
  assert (Hbest : (5 <= top.1)%Q).
  { apply list_elem_of_lookup_1 in Hm as [i Hi].
    pose proof (elem_of_lookup_imap_2
                  (fun i x => (score rnd (str_lower user_request) i x, x))
                  items m i Hi) as Hentry.
    fold (score_all rnd (str_lower user_request) items) in Hentry. fold all in Hentry.
    pose proof (Hmax _ Hentry) as Hle.
    destruct (Hbounds _ Hentry) as (_ & Hlo & _). simpl in Hle, Hlo.
    pose proof (matched_points user_request m Hmatched). lra. }
  destruct Hwhere as [[_ (j & s & Hj & Hs & Hr)] | [Hpos _]].
  2: { apply Qlt_bool_false in Hpos. lra. }
  assert (Hs_all : s ∈ all).
  { rewrite <- Hperm. by apply list_elem_of_lookup_2 in Hs. }
  destruct (Hbounds s Hs_all) as (Hs_items & _ & Hs_hi).
  rewrite Hr in Hs_items, Hs_hi.
  exists r. split; [done |]. split; [done |].
  destruct (decide (category_matched user_request r)) as [| Hno]; [done |].
  exfalso. rewrite (unmatched_points user_request r Hno) in Hs_hi.
  change (inject_Z 0) with 0%Q in Hs_hi.
  destruct Hmany as [Hcount | [_ Hall]].
  2: { rewrite Forall_forall in Hall. by apply Hno, Hall. }
  assert (Hlen : length (filter (fun t : Q * gmap string string =>
                                   category_matched user_request t.2)
                                (sort_desc all)) <= j).
  { apply filter_length_before. apply Forall_forall. intros t Ht Hmt.
    pose proof (descending_from _ j s Hdesc Hs) as Hafter.
    rewrite Forall_forall in Hafter. pose proof (Hafter t Ht) as Hle.
    assert (Ht_all : t ∈ all).
    { rewrite <- Hperm. apply list_elem_of_lookup_1 in Ht as [k Hk].
      rewrite lookup_drop in Hk. by apply list_elem_of_lookup_2 in Hk. }
    destruct (Hbounds t Ht_all) as (_ & Hlo & _).
    pose proof (matched_points user_request t.2 Hmt). simpl in Hle. lra. }
  rewrite Hperm in Hlen. unfold all, score_all in Hlen.
  rewrite (filter_imap_length (category_matched user_request)) in Hlen. lia.
Qed.

End FallbackMatching.


Lemma fallback_prefers_matching_witness :
  exists r,
    _smart_fallback_selection (H:=lower_uk) (oracle_of (Py.Return "") 1 5)
      "обід із сім'єю" 0 [[family_place "A"; family_place "B"]]
    = (Py.Return r, [[family_place "A"; family_place "B"]])
    /\ r ∈ [family_place "A"; family_place "B"]
    /\ category_matched (H:=lower_uk) "обід із сім'єю" r.
Proof.
  apply (fallback_prefers_matching (H:=lower_uk) (oracle_of (Py.Return "") 1 5)
           "обід із сім'єю" 0 [[family_place "A"; family_place "B"]]
           [family_place "A"; family_place "B"]).
  - reflexivity.
  - intros i. simpl. lra.
  - right. split; [done |].
    repeat constructor; by vm_compute.
Defined.

(** ** The chat layer *)

(** Running a handler through all its branches. *)
Ltac chat_run :=
  unfold handle_message, start, response_text_of;
  unfold mbind, mret, Chat_bind, Chat_ret, Chat.bind, Chat.call,
    Chat.lift, Chat.try_except, Chat.get_states, Chat.set_states, Chat.getkey;
  unfold Chat.ret, Chat.raise;
  cbn [Chat.heap Chat.user_states Chat.sent Chat.calls fst snd];
  repeat (case_match;
          cbn [Chat.heap Chat.user_states Chat.sent Chat.calls fst snd] in *;
          simplify_eq).

Lemma recommendation_dict_get chosen key placeholder :
  (key, placeholder) ∈ placeholders ->
  dict_get (recommendation_dict chosen) key "" = field_value chosen key placeholder.
Proof.
  intros Hin. unfold dict_get at 1.
  by rewrite (recommendation_dict_lookup _ _ placeholder Hin).
Qed.

Lemma recommendation_menu_url r :
  dict_get (recommendation_dict r) "menu_url" "" = dict_get r "menu_url" "".
Proof.
  rewrite (recommendation_dict_get r "menu_url" ""); [reflexivity |].
  unfold placeholders. rewrite !elem_of_cons. auto 10.
Qed.

Lemma recommendation_photo r :
  dict_get (recommendation_dict r) "photo" ""
  = _convert_google_drive_url (dict_get r "photo" "").
Proof.
  rewrite (recommendation_dict_get r "photo" ""); [reflexivity |].
  unfold placeholders. rewrite !elem_of_cons. auto 10.
Qed.

Lemma recommendation_dict_truthy r : truthy (Some (recommendation_dict r)) = true.
Proof.
  unfold truthy. apply negb_true_iff, bool_decide_eq_false. intros Hempty.
  assert (recommendation_dict r !! "name" = None) as Hname
    by (rewrite Hempty; apply lookup_empty).
  rewrite (recommendation_dict_lookup r "name" "Ресторан") in Hname; [done |].
  by left.
Qed.

Lemma chat_bind_run {A B} (f : A -> Chat.M B) (m : Chat.M A) w :
  (m ≫= f) w =
  match m w with
  | (Py.Return a, w') => f a w'
  | (Py.Raise e, w') => (Py.Raise e, w')
  end.
Proof. reflexivity. Qed.

Lemma chat_call_run telegram event w :
  Chat.call telegram event w
  = if telegram (Chat.calls w)
    then (Py.Raise Py.OtherException,
          {| Chat.heap := Chat.heap w; Chat.user_states := Chat.user_states w;
             Chat.sent := Chat.sent w; Chat.calls := S (Chat.calls w) |})
    else (Py.Return tt,
          {| Chat.heap := Chat.heap w; Chat.user_states := Chat.user_states w;
             Chat.sent := Chat.sent w ++ [event]; Chat.calls := S (Chat.calls w) |}).
Proof. reflexivity. Qed.

Lemma chat_lift_run {A} (m : Py.M A) w o h' :
  m (Chat.heap w) = (o, h') ->
  Chat.lift m w
  = (o, {| Chat.heap := h'; Chat.user_states := Chat.user_states w;
           Chat.sent := Chat.sent w; Chat.calls := Chat.calls w |}).
Proof. intros Hm. unfold Chat.lift. by rewrite Hm. Qed.

(** Closing the session and inviting the user to start again (lines
    421-423), when the session is still there and the call goes through. *)
Lemma close_session_run telegram user_id state w :
  Chat.user_states w !! user_id = Some state ->
  telegram (Chat.calls w) = false ->
  (states ← Chat.get_states;
   match states !! user_id with
   | Some _ => Chat.set_states (delete user_id states)
   | None => Chat.raise Py.OtherException
   end;;
   Chat.call telegram (Chat.ReplyText ask_start_again false)) w
  = (Py.Return tt,
     {| Chat.heap := Chat.heap w;
        Chat.user_states := delete user_id (Chat.user_states w);
        Chat.sent := Chat.sent w ++ [Chat.ReplyText ask_start_again false];
        Chat.calls := S (Chat.calls w) |}).
Proof.
  intros Hstate Hok.
  rewrite chat_bind_run. unfold Chat.get_states. rewrite Hstate.
  rewrite chat_bind_run. unfold Chat.set_states. rewrite chat_call_run.
  cbn [Chat.heap Chat.user_states Chat.sent Chat.calls]. by rewrite Hok.
Qed.

Section ChatProps.
Context `{StrLower}.

(** What [get_recommendation] can give, on any heap. *)
Lemma get_recommendation_cases bot rnd user_request h :
  get_recommendation bot rnd user_request h = (Py.Return None, h)
  \/ exists r extra cat,
       h !! restaurants_data bot = Some cat /\ r ∈ cat
       /\ get_recommendation bot rnd user_request h
          = (Py.Return (Some (recommendation_dict r)), h ++ extra).
Proof.
  destruct (default [] (h !! restaurants_data bot)) as [|r0 cat] eqn:Hdata.
  - left. by apply get_recommendation_empty.
  - right. destruct (h !! restaurants_data bot) as [cat'|] eqn:Hcat; [| done].
    simpl in Hdata. subst cat'.
    destruct (get_recommendation_run bot rnd user_request h (r0 :: cat) Hcat)
      as (r & extra & Hrun & Hr); [done |].
    by exists r, extra, (r0 :: cat).
Qed.

Lemma response_text_of_dict r w :
  response_text_of (recommendation_dict r) w
  = (Py.Return
       ("🏠 <b>" +:+ dict_get r "name" "Ресторан" +:+ "</b>" +:+ nl +:+ nl
        +:+ "📍 <b>Адреса:</b> " +:+ dict_get r "address" "Адреса не вказана"
        +:+ nl +:+ nl
        +:+ "📱 <b>Соц-мережі:</b> " +:+ dict_get r "socials" "Соц-мережі не вказані"
        +:+ nl +:+ nl
        +:+ "✨ <b>Атмосфера:</b> " +:+ dict_get r "vibe" "Приємна атмосфера"), w).
Proof.
  unfold response_text_of, Chat.getkey.
  rewrite (recommendation_dict_lookup r "name" "Ресторан"),
    (recommendation_dict_lookup r "address" "Адреса не вказана"),
    (recommendation_dict_lookup r "socials" "Соц-мережі не вказані"),
    (recommendation_dict_lookup r "vibe" "Приємна атмосфера");
    [reflexivity | unfold placeholders; rewrite !elem_of_cons; auto 10 ..].
Qed.

Lemma handle_message_no_session bot rnd telegram user_id user_request w :
  Chat.user_states w !! user_id = None ->
  handle_message bot rnd telegram user_id user_request w
  = Chat.call telegram (Chat.ReplyText ask_start false) w.
Proof.
  intros Hnone. unfold handle_message.
  unfold mbind, Chat_bind, Chat.bind, Chat.get_states. by rewrite Hnone.
Qed.

(** X12. A message from a user who has no open session gets one reply, the
    invitation to send /start: the engine is not run and neither the heap
    nor [user_states] changes; if the reply cannot be sent the exception
    goes to the caller. *)
Theorem handle_message_without_session bot rnd telegram user_id user_request w :
  Chat.user_states w !! user_id = None ->
  handle_message bot rnd telegram user_id user_request w
  = if telegram (Chat.calls w)
    then (Py.Raise Py.OtherException,
          {| Chat.heap := Chat.heap w; Chat.user_states := Chat.user_states w;
             Chat.sent := Chat.sent w; Chat.calls := S (Chat.calls w) |})
    else (Py.Return tt,
          {| Chat.heap := Chat.heap w; Chat.user_states := Chat.user_states w;
             Chat.sent := Chat.sent w ++ [Chat.ReplyText ask_start false];
             Chat.calls := S (Chat.calls w) |}).
Proof.
  intros Hnone. by rewrite handle_message_no_session.
Qed.

(** X13. [handle_message] for one user never changes the state of another
    user, whatever the engine and Telegram do, and it returns normally only
    with the session of its user closed. *)
Theorem handle_message_other_users bot rnd telegram user_id user_request w :
  (forall other, other <> user_id ->
     Chat.user_states (handle_message bot rnd telegram user_id user_request w).2
       !! other
     = Chat.user_states w !! other)
  /\ ((handle_message bot rnd telegram user_id user_request w).1 = Py.Return tt ->
      Chat.user_states (handle_message bot rnd telegram user_id user_request w).2
      = delete user_id (Chat.user_states w)).
Proof.
  split.
  - intros other Hother. chat_run; try done; by rewrite lookup_delete_ne.
  - chat_run; try done. intros _. symmetry. by apply delete_id.
Qed.


(** The part of [handle_message] that follows the test of the session. *)
Lemma handle_message_with_session bot rnd telegram user_id user_request w state o h' :
  Chat.user_states w !! user_id = Some state ->
  telegram (Chat.calls w) = false ->
  telegram (S (Chat.calls w)) = false ->
  get_recommendation bot rnd user_request (Chat.heap w) = (Py.Return o, h') ->
  handle_message bot rnd telegram user_id user_request w
  = ((if truthy o then
        let d := default ∅ o in
        response_text ← response_text_of d;
        let menu_url := dict_get d "menu_url" "" in
        let response_text :=
          if is_http menu_url then response_text +:+ menu_link menu_url
          else response_text in
        let photo_url := dict_get d "photo" "" in
        if is_http photo_url then
          Chat.try_except
            (Chat.call telegram (Chat.ReplyPhoto photo_url response_text))
            (fun _ =>
               let response_text := response_text +:+ photo_link photo_url in
               Chat.call telegram (Chat.ReplyText response_text true))
        else Chat.call telegram (Chat.ReplyText response_text true)
      else Chat.call telegram (Chat.ReplyText apology false));;
     states ← Chat.get_states;
     match states !! user_id with
     | Some _ => Chat.set_states (delete user_id states)
     | None => Chat.raise Py.OtherException
     end;;
     Chat.call telegram (Chat.ReplyText ask_start_again false))
      {| Chat.heap := h'; Chat.user_states := Chat.user_states w;
         Chat.sent := Chat.sent w ++ [Chat.ReplyText searching false;
                                      Chat.DeleteMessage searching];
         Chat.calls := S (S (Chat.calls w)) |}.
Proof.
  intros Hstate Hok0 Hok1 Hrun. unfold handle_message.
  rewrite chat_bind_run. unfold Chat.get_states at 1. rewrite Hstate.
  rewrite chat_bind_run, chat_call_run, Hok0.
  rewrite chat_bind_run. erewrite chat_lift_run by exact Hrun. cbv beta iota.
  rewrite chat_bind_run, chat_call_run.
  cbn [Chat.heap Chat.user_states Chat.sent Chat.calls]. rewrite Hok1.
  by rewrite <- app_assoc.
Qed.

(** The run of [handle_message] when the engine has nothing to recommend
    and the calls go through. *)
Lemma handle_message_apology_run bot rnd telegram user_id user_request w state h' :
  Chat.user_states w !! user_id = Some state ->
  (forall n, n < 4 -> telegram (n + Chat.calls w) = false) ->
  get_recommendation bot rnd user_request (Chat.heap w) = (Py.Return None, h') ->
  handle_message bot rnd telegram user_id user_request w
  = (Py.Return tt,
     {| Chat.heap := h';
        Chat.user_states := delete user_id (Chat.user_states w);
        Chat.sent := Chat.sent w
                     ++ [Chat.ReplyText searching false;
                         Chat.DeleteMessage searching;
                         Chat.ReplyText apology false;
                         Chat.ReplyText ask_start_again false];
        Chat.calls := 4 + Chat.calls w |}).
Proof.
  intros Hstate Hok Hrun.
  pose proof (Hok 0 ltac:(lia)) as Hok0. pose proof (Hok 1 ltac:(lia)) as Hok1.
  pose proof (Hok 2 ltac:(lia)) as Hok2. pose proof (Hok 3 ltac:(lia)) as Hok3.
  cbn [Nat.add] in Hok0, Hok1, Hok2, Hok3.
  rewrite (handle_message_with_session _ _ _ _ _ _ state _ _ Hstate Hok0 Hok1 Hrun).
  cbn [truthy]. cbv iota.
  rewrite chat_bind_run, chat_call_run.
  cbn [Chat.heap Chat.user_states Chat.sent Chat.calls]. rewrite Hok2.
  rewrite (close_session_run _ _ state) by done.
  cbn [Chat.heap Chat.user_states Chat.sent Chat.calls].
  by rewrite <- !app_assoc.
Qed.

(** The state of [handle_message] when the recommendation [r] is about to
    be sent. *)
Lemma handle_message_sending bot rnd telegram user_id user_request w state r h' :
  Chat.user_states w !! user_id = Some state ->
  telegram (Chat.calls w) = false ->
  telegram (S (Chat.calls w)) = false ->
  get_recommendation bot rnd user_request (Chat.heap w)
  = (Py.Return (Some (recommendation_dict r)), h') ->
  let photo_url := _convert_google_drive_url (dict_get r "photo" "") in
  handle_message bot rnd telegram user_id user_request w
  = ((if is_http photo_url then
        Chat.try_except
          (Chat.call telegram (Chat.ReplyPhoto photo_url (caption_of r)))
          (fun _ =>
             Chat.call telegram
               (Chat.ReplyText (caption_of r +:+ photo_link photo_url) true))
      else Chat.call telegram (Chat.ReplyText (caption_of r) true));;
     states ← Chat.get_states;
     match states !! user_id with
     | Some _ => Chat.set_states (delete user_id states)
     | None => Chat.raise Py.OtherException
     end;;
     Chat.call telegram (Chat.ReplyText ask_start_again false))
      {| Chat.heap := h'; Chat.user_states := Chat.user_states w;
         Chat.sent := Chat.sent w ++ [Chat.ReplyText searching false;
                                      Chat.DeleteMessage searching];
         Chat.calls := S (S (Chat.calls w)) |}.
Proof.
  intros Hstate Hok0 Hok1 Hrun photo_url.
  rewrite (handle_message_with_session _ _ _ _ _ _ state _ _ Hstate Hok0 Hok1 Hrun).
  rewrite recommendation_dict_truthy. cbv iota zeta.
  change (default ∅ (Some (recommendation_dict r))) with (recommendation_dict r).
  rewrite !chat_bind_run, response_text_of_dict. cbv beta iota.
  rewrite recommendation_menu_url, recommendation_photo.
  fold (caption_of r). fold photo_url. reflexivity.
Qed.

(** The run of [handle_message] when the engine recommends [r] and the
    calls go through. *)
Lemma handle_message_recommends_run bot rnd user_id user_request w state r h' :
  Chat.user_states w !! user_id = Some state ->
  get_recommendation bot rnd user_request (Chat.heap w)
  = (Py.Return (Some (recommendation_dict r)), h') ->
  handle_message bot rnd (fun _ => false) user_id user_request w
  = (Py.Return tt,
     {| Chat.heap := h';
        Chat.user_states := delete user_id (Chat.user_states w);
        Chat.sent := Chat.sent w
                     ++ [Chat.ReplyText searching false;
                         Chat.DeleteMessage searching;
                         recommendation_message r;
                         Chat.ReplyText ask_start_again false];
        Chat.calls := 4 + Chat.calls w |}).
Proof.
  intros Hstate Hrun.
  rewrite (handle_message_sending _ _ _ _ _ _ state _ _ Hstate eq_refl eq_refl Hrun).
  unfold recommendation_message.
  destruct (is_http (_convert_google_drive_url (dict_get r "photo" ""))).
  - rewrite chat_bind_run. unfold Chat.try_except. rewrite chat_call_run.
    rewrite (close_session_run _ _ state) by done.
    cbn [Chat.heap Chat.user_states Chat.sent Chat.calls].
    by rewrite <- !app_assoc.
  - rewrite chat_bind_run, chat_call_run.
    rewrite (close_session_run _ _ state) by done.
    cbn [Chat.heap Chat.user_states Chat.sent Chat.calls].
    by rewrite <- !app_assoc.
Qed.

(** X18. With an open session, a non-empty catalog and Telegram calls that
    all go through, the user gets, in this order: the notice that the search
    is on, its deletion, one message with the recommendation of a restaurant
    of the catalog (a photo with caption when the photo URL starts with
    [http], an HTML text otherwise) and the invitation to start again; the
    session is closed. *)
Theorem handle_message_recommends bot rnd user_id user_request w state cat :
  Chat.user_states w !! user_id = Some state ->
  Chat.heap w !! restaurants_data bot = Some cat -> cat <> [] ->
  exists r extra,
    r ∈ cat
    /\ handle_message bot rnd (fun _ => false) user_id user_request w
       = (Py.Return tt,
          {| Chat.heap := Chat.heap w ++ extra;
             Chat.user_states := delete user_id (Chat.user_states w);
             Chat.sent := Chat.sent w
                          ++ [Chat.ReplyText searching false;
                              Chat.DeleteMessage searching;
                              recommendation_message r;
                              Chat.ReplyText ask_start_again false];
             Chat.calls := 4 + Chat.calls w |}).
Proof.
  intros Hstate Hcat Hne.
  destruct (get_recommendation_run bot rnd user_request _ cat Hcat Hne)
    as (r & extra & Hrun & Hr).
  exists r, extra. split; [done |].
  by apply (handle_message_recommends_run _ _ _ _ _ state).
Qed.


(** X16. With an open session and an empty catalog the user gets the notice
    that the search is on, its deletion, the apology and the invitation to
    start again; the session is closed and the heap is as before. *)
Theorem handle_message_empty_catalog bot rnd user_id user_request w state :
  Chat.user_states w !! user_id = Some state ->
  Chat.heap w !! restaurants_data bot = Some [] ->
  handle_message bot rnd (fun _ => false) user_id user_request w
  = (Py.Return tt,
     {| Chat.heap := Chat.heap w;
        Chat.user_states := delete user_id (Chat.user_states w);
        Chat.sent := Chat.sent w
                     ++ [Chat.ReplyText searching false;
                         Chat.DeleteMessage searching;
                         Chat.ReplyText apology false;
                         Chat.ReplyText ask_start_again false];
        Chat.calls := 4 + Chat.calls w |}).
Proof.
  intros Hstate Hcat.
  apply (handle_message_apology_run _ _ _ _ _ _ state); [done | done |].
  apply get_recommendation_empty. by rewrite Hcat.
Qed.

(** X20. [start] opens the session of the user before the greeting is
    sent: whether or not the greeting goes through, the user is afterwards
    in state [waiting_request], the states of the other users and the heap
    are as before, and exactly one call to Telegram has been made. *)
Theorem start_opens_session telegram user_id w :
  Chat.user_states (start telegram user_id w).2 !! user_id = Some "waiting_request"
  /\ (forall other, other <> user_id ->
        Chat.user_states (start telegram user_id w).2 !! other
        = Chat.user_states w !! other)
  /\ Chat.heap (start telegram user_id w).2 = Chat.heap w
  /\ Chat.calls (start telegram user_id w).2 = S (Chat.calls w)
  /\ Chat.sent (start telegram user_id w).2
     = if telegram (Chat.calls w) then Chat.sent w
       else Chat.sent w ++ [Chat.ReplyText start_message false].
Proof.
  unfold start, mbind, Chat_bind, Chat.bind, Chat.get_states, Chat.set_states,
    Chat.call.
  cbn [Chat.heap Chat.user_states Chat.sent Chat.calls].
  destruct (telegram (Chat.calls w));
    cbn [snd Chat.heap Chat.user_states Chat.sent Chat.calls];
    (split; [apply lookup_insert_eq |]; split; [| done]);
    intros other Hother; by apply lookup_insert_ne.
Qed.

(** X17. A session serves one request.  With Telegram calls that all go
    through, and whatever the catalog holds: after [start] the message of
    the user is handled to the end and closes the session, leaving
    [user_states] as it was before [start] without the user; the next
    message of the same user is answered by the invitation to send /start
    and by nothing else. *)
Theorem session_serves_one_request bot rnd rnd' user_id request request' w :
  let w1 := (start (fun _ => false) user_id w).2 in
  let w2 := (handle_message bot rnd (fun _ => false) user_id request w1).2 in
  (handle_message bot rnd (fun _ => false) user_id request w1).1 = Py.Return tt
  /\ Chat.user_states w2 = delete user_id (Chat.user_states w)
  /\ handle_message bot rnd' (fun _ => false) user_id request' w2
     = (Py.Return tt,
        {| Chat.heap := Chat.heap w2; Chat.user_states := Chat.user_states w2;
           Chat.sent := Chat.sent w2 ++ [Chat.ReplyText ask_start false];
           Chat.calls := S (Chat.calls w2) |}).
Proof.
  intros w1 w2.
  assert (Hw1 : Chat.user_states w1 = <[user_id := "waiting_request"]> (Chat.user_states w))
    by reflexivity.
  assert (Hstate : Chat.user_states w1 !! user_id = Some "waiting_request")
    by (rewrite Hw1; apply lookup_insert_eq).
  assert (Hrun : (handle_message bot rnd (fun _ => false) user_id request w1).1
                 = Py.Return tt
                 /\ Chat.user_states w2 = delete user_id (Chat.user_states w1)).
  { unfold w2.
    destruct (get_recommendation_cases bot rnd request (Chat.heap w1))
      as [Hnone | (r & extra & cat & _ & _ & Hsome)].
    - by rewrite (handle_message_apology_run _ _ _ _ _ _ _ _ Hstate (fun _ _ => eq_refl) Hnone).
    - by rewrite (handle_message_recommends_run _ _ _ _ _ _ _ _ Hstate Hsome). }
  destruct Hrun as [Hreturn Hstates]. split; [done |].
  assert (Hclosed : Chat.user_states w2 = delete user_id (Chat.user_states w))
    by (rewrite Hstates, Hw1; apply delete_insert_eq).
  split; [done |].
  rewrite handle_message_no_session; [reflexivity |].
  rewrite Hclosed. apply lookup_delete_eq.
Qed.

End ChatProps.

(** ** Start-up: [__init__] and [init_google_sheets] *)

(** X19. A failed start-up leaves a bot that recommends nothing: the bot
    is created with an empty catalog, [init_google_sheets] swallows whatever
    exception the loading raises and leaves the bot and the heap as they
    were, and [get_recommendation] then returns [None]; when the loading
    succeeds the bot that comes back has the loaded records as catalog, in
    a list object of their own. *)
Theorem failed_startup_recommends_nothing `{StrLower} h e rnd user_request :
  let bot := {| restaurants_data := length h |} in
  RestaurantBot_init h = (Py.Return bot, h ++ [[]])
  /\ init_google_sheets bot (Py.Raise e) (h ++ [[]]) = (Py.Return bot, h ++ [[]])
  /\ get_recommendation bot rnd user_request (h ++ [[]]) = (Py.Return None, h ++ [[]])
  /\ forall records,
       init_google_sheets bot (Py.Return records) (h ++ [[]])
       = (Py.Return {| restaurants_data := length (h ++ [[]]) |},
          (h ++ [[]]) ++ [records])
       /\ ((h ++ [[]]) ++ [records]) !! length (h ++ [[]]) = Some records
       /\ ((h ++ [[]]) ++ [records]) !! restaurants_data bot = Some [].
Proof.
  intros bot. split; [reflexivity |]. split; [reflexivity |]. split.
  - apply get_recommendation_empty. simpl. by rewrite lookup_new_object.
  - intros records. split; [reflexivity |].
    split; [apply lookup_new_object |].
    apply lookup_old_object, lookup_new_object.
Qed.

(** ** Concrete runs of the chat layer *)

Lemma handle_message_without_session_witness :
  handle_message (H:=lower_uk) bot0 (oracle_of (Py.Return "1") 1 0) (fun _ => false)
    7 "шукаю піцу" (world0 ∅ [])
  = (Py.Return tt,
     {| Chat.heap := [[sushi_bar; pizza_place]]; Chat.user_states := ∅;
        Chat.sent := [] ++ [Chat.ReplyText ask_start false]; Chat.calls := 1 |}).
Proof.
  apply (handle_message_without_session (H:=lower_uk) bot0
           (oracle_of (Py.Return "1") 1 0) (fun _ => false) 7 "шукаю піцу"
           (world0 ∅ [])).
  reflexivity.
Defined.

Lemma handle_message_other_users_witness :
  Chat.user_states
    (handle_message (H:=lower_uk) bot0 (oracle_of (Py.Return "1") 1 0)
       (fun _ => false) 7 "шукаю піцу"
       (world0 {[ 8%Z := "waiting_request" ]} [])).2 !! 8%Z
  = Chat.user_states (world0 {[ 8%Z := "waiting_request" ]} []) !! 8%Z.
Proof.
  apply (proj1 (handle_message_other_users (H:=lower_uk) bot0
                  (oracle_of (Py.Return "1") 1 0) (fun _ => false) 7 "шукаю піцу"
                  (world0 {[ 8%Z := "waiting_request" ]} []))).
  done.
Defined.


Lemma handle_message_recommends_witness :
  exists r extra,
    r ∈ [sushi_bar; pizza_place]
    /\ handle_message (H:=lower_uk) bot0 (oracle_of (Py.Return "1") 1 0)
         (fun _ => false) 7 "шукаю піцу" (world0 {[ 7%Z := "waiting_request" ]} [])
       = (Py.Return tt,
          {| Chat.heap := [[sushi_bar; pizza_place]] ++ extra;
             Chat.user_states := delete 7%Z {[ 7%Z := "waiting_request" ]};
             Chat.sent := [] ++ [Chat.ReplyText searching false;
                                 Chat.DeleteMessage searching;
                                 recommendation_message r;
                                 Chat.ReplyText ask_start_again false];
             Chat.calls := 4 + 0 |}).
Proof.
  exact (handle_message_recommends (H:=lower_uk) bot0 (oracle_of (Py.Return "1") 1 0)
           7 "шукаю піцу" (world0 {[ 7%Z := "waiting_request" ]} [])
           "waiting_request" [sushi_bar; pizza_place]
           eq_refl eq_refl ltac:(done)).
Defined.


Lemma handle_message_empty_catalog_witness :
  handle_message (H:=lower_uk) bot0 (oracle_of (Py.Return "1") 1 0) (fun _ => false)
    7 "шукаю піцу"
    {| Chat.heap := [[]]; Chat.user_states := {[ 7%Z := "waiting_request" ]};
       Chat.sent := []; Chat.calls := 0 |}
  = (Py.Return tt,
     {| Chat.heap := [[]];
        Chat.user_states := delete 7%Z {[ 7%Z := "waiting_request" ]};
        Chat.sent := [] ++ [Chat.ReplyText searching false;
                            Chat.DeleteMessage searching;
                            Chat.ReplyText apology false;
                            Chat.ReplyText ask_start_again false];
        Chat.calls := 4 + 0 |}).
Proof.
  exact (handle_message_empty_catalog (H:=lower_uk) bot0
           (oracle_of (Py.Return "1") 1 0) 7 "шукаю піцу"
           {| Chat.heap := [[]]; Chat.user_states := {[ 7%Z := "waiting_request" ]};
              Chat.sent := []; Chat.calls := 0 |} "waiting_request"
           eq_refl eq_refl).
Defined.

Lemma start_opens_session_witness :
  Chat.user_states
    (start (fun _ => true) 7 (world0 {[ 8%Z := "waiting_request" ]} [])).2 !! 8%Z
  = Chat.user_states (world0 {[ 8%Z := "waiting_request" ]} []) !! 8%Z.
Proof.
  apply (proj1 (proj2 (start_opens_session (fun _ => true) 7
                         (world0 {[ 8%Z := "waiting_request" ]} [])))).
  done.
Defined.
